(** * Backend selection of pyspnego ([spnego/auth.py])

    A shallow embedding of [_new_context], [client] and [server] and the
    properties of the provider selection they implement.

    Python strings are modelled as [string] (ASCII text), Python integers
    and [IntFlag] values as [Z] with [Z.land] / [Z.lor], Python lists as
    [list], and exceptions by an error monad that also records the calls
    made to the collaborators of [auth.py] in the order they happen. *)

From Stdlib Require Import ZArith List String Ascii Bool Lia.
Import ListNotations.
Local Open Scope string_scope.
Local Open Scope Z_scope.

(** ** Exceptions, events and the monad *)

Inductive exn : Type :=
| ValueError (msg : string)
| InvalidCredentialError.

Inductive result (A : Type) : Type :=
| Ok (a : A)
| Raise (e : exn).

Arguments Ok {A} a.
Arguments Raise {A} e.

(** The five classes [_new_context] can pick from (imports of [auth.py]). *)
Inductive proxy : Type :=
| CredSSPProxy
| SSPIProxy
| GSSAPIProxy
| NegotiateProxy
| NTLMProxy.

(** The two native providers that are asked for their protocols. *)
Inductive native : Type := SSPI | GSSAPI.

(** Calls that leave [auth.py], in program order. *)
Inductive event : Type :=
| EvUnify
| EvProbe (b : native)
| EvConstruct (p : proxy).

(** A computation yields the calls it made and a value or an exception. *)
Definition M (A : Type) : Type := (list event * result A)%type.

Definition ret {A} (a : A) : M A := ([], Ok a).
Definition tell (e : event) : M unit := ([e], Ok tt).
Definition lift {A} (r : result A) : M A := ([], r).

Definition bind {A B} (m : M A) (k : A -> M B) : M B :=
  match m with
  | (t, Raise e) => (t, Raise e)
  | (t, Ok a) => let (t', r) := k a in ((t ++ t')%list, r)
  end.

Notation "x <- c ;; k" := (bind c (fun x => k))
  (at level 61, c at next level, right associativity).
Notation "' pat <- c ;; k" := (bind c (fun x => match x with pat => k end))
  (at level 61, pat pattern, c at next level, right associativity).
Notation "c ;;; k" := (bind c (fun _ => k))
  (at level 61, right associativity).

Definition trace {A} (m : M A) : list event := fst m.
Definition outcome {A} (m : M A) : result A := snd m.

(** ** Strings and lists as Python has them *)

(** [str.lower()] on ASCII text. *)
Definition lower_ascii (c : ascii) : ascii :=
  let n := N_of_ascii c in
  if ((65 <=? n) && (n <=? 90))%N then ascii_of_N (n + 32) else c.

Fixpoint lower (s : string) : string :=
  match s with
  | EmptyString => EmptyString
  | String c r => String (lower_ascii c) (lower r)
  end.

(** [x in l] *)
Definition in_list (x : string) (l : list string) : bool :=
  existsb (String.eqb x) l.

(** [l.remove(x)]: drops the first element equal to [x]; raises
    [ValueError] when there is none. *)
Fixpoint list_remove (x : string) (l : list string) : result (list string) :=
  match l with
  | [] => Raise (ValueError "list.remove(x): x not in list")
  | y :: r =>
      if String.eqb y x then Ok r
      else match list_remove x r with
           | Ok r' => Ok (y :: r')
           | Raise e => Raise e
           end
  end.

(** [if x in l: l.remove(x)], the guarded removal of [auth.py] 91-95. *)
Definition remove_if_in (x : string) (l : list string) : result (list string) :=
  if in_list x l then list_remove x l else Ok l.

(** Truth value of an integer. *)
Definition truthy (z : Z) : bool := negb (z =? 0).

(** ** Credentials *)

(** Modelled from the spec: the credential classes of [spnego._credential]
    (imported by [auth.py] and [__init__.py], not part of the sources
    here), with the fields section 3 of the specification lists. *)
Inductive Credential : Type :=
| Password (username password : string)
| KerberosCCache (principal : option string) (ccache : string)
| KerberosKeytab (principal keytab : string)
| NTLMHash (username : string) (lm_hash : option string) (nt_hash : string)
| CredentialCache (principal : option string).

(** Modelled from the spec: the [supported_protocols] attribute of each
    credential class. The cache and the password serve both protocols, the
    Kerberos credentials only [kerberos], the hash only [ntlm]. *)
Definition supported_protocols (c : Credential) : list string :=
  match c with
  | Password _ _ => ["kerberos"; "ntlm"]
  | KerberosCCache _ _ => ["kerberos"]
  | KerberosKeytab _ _ => ["kerberos"]
  | NTLMHash _ _ _ => ["ntlm"]
  | CredentialCache _ => ["kerberos"; "ntlm"]
  end.

(** [isinstance(cred, (Password, KerberosKeytab))] *)
Definition is_Password_or_KerberosKeytab (c : Credential) : bool :=
  match c with
  | Password _ _ | KerberosKeytab _ _ => true
  | _ => false
  end.

(** [isinstance(cred, NTLMHash)] *)
Definition is_NTLMHash (c : Credential) : bool :=
  match c with
  | NTLMHash _ _ _ => true
  | _ => false
  end.

(** The [username] argument of [client]. *)
Inductive UsernameArg : Type :=
| UserAbsent
| UserStr (s : string)
| UserCred (c : Credential)
| UserCreds (l : list Credential).

(** Modelled from the spec: [unify_credentials] of [spnego._credential],
    rules 1 to 5 of section 4.1. *)
Definition unify_credentials (username : UsernameArg) (password : option string)
  : result (list Credential) :=
  match username, password with
  | UserAbsent, _ => Ok [CredentialCache None]
  | UserStr u, None => Ok [CredentialCache (Some u)]
  | UserStr u, Some p => Ok [Password u p]
  | UserCred c, None => Ok [c]
  | UserCreds l, None => Ok l
  | UserCred _, Some _ => Raise InvalidCredentialError
  | UserCreds _, Some _ => Raise InvalidCredentialError
  end.

(** ** Flags *)

(** The members of [NegotiateOptions] that [auth.py] reads. Their values
    are declared in [spnego.exceptions]; the development is generic in
    them. *)
Class NegotiateOptions : Type := {
  use_sspi : Z;
  use_gssapi : Z;
  use_negotiate : Z;
  use_ntlm : Z
}.

(** The members of [ContextReq] that [auth.py] reads, declared in
    [spnego._context]. *)
Class ContextReq : Type := {
  delegate : Z;
  delegate_policy : Z
}.

(** One bit per flag, used where a concrete call is evaluated. *)
Definition bit_options : NegotiateOptions :=
  {| use_sspi := 1; use_gssapi := 2; use_negotiate := 4; use_ntlm := 8 |}.

Definition bit_context_req : ContextReq :=
  {| delegate := 1; delegate_policy := 524288 |}.

(** ** The host and the constructed context *)

(** What the two native providers report for given options on this host:
    [SSPIProxy.available_protocols] and [GSSAPIProxy.available_protocols]. *)
Record Host : Type := {
  sspi_available : Z -> list string;
  gssapi_available : Z -> list string
}.

Definition GssChannelBindings : Type := list Byte.byte.

(** The constructor call [proxy(username=..., ..., options=...)] that
    [_new_context] returns: the class and its keyword arguments. *)
Record ContextProxy : Type := {
  ctx_proxy : proxy;
  ctx_username : list Credential;
  ctx_hostname : string;
  ctx_service : string;
  ctx_channel_bindings : option GssChannelBindings;
  ctx_context_req : Z;
  ctx_usage : string;
  ctx_protocol : string;
  ctx_options : Z
}.

Section Selection.

Context {NO : NegotiateOptions} {CR : ContextReq}.

(** [auth.py] 66-67 *)
Definition use_flags : Z :=
  Z.lor (Z.lor (Z.lor use_sspi use_gssapi) use_negotiate) use_ntlm.

(** [auth.py] 76 *)
Definition forwardable_of (context_req : Z) : bool :=
  truthy (Z.land context_req delegate) || truthy (Z.land context_req delegate_policy).

(** The loop of [auth.py] 78-85; each [break] ends the recursion. *)
Fixpoint kerberos_cred_loop (forwardable : bool) (credentials : list Credential)
  (gssapi_protocols : list string) : result (list string) :=
  match credentials with
  | [] => Ok gssapi_protocols
  | cred :: rest =>
      if list_eq_dec string_dec (supported_protocols cred) ["kerberos"] then
        list_remove "negotiate" gssapi_protocols
      else if forwardable && is_Password_or_KerberosKeytab cred then
        list_remove "negotiate" gssapi_protocols
      else kerberos_cred_loop forwardable rest gssapi_protocols
  end.

(** [auth.py] 75-85 *)
Definition filter_gssapi_negotiate (context_req : Z) (credentials : list Credential)
  (gssapi_protocols : list string) : result (list string) :=
  if in_list "negotiate" gssapi_protocols then
    let forwardable := forwardable_of context_req in
    kerberos_cred_loop forwardable credentials gssapi_protocols
  else Ok gssapi_protocols.

(** The body of the inner loop, [auth.py] 91-95, for one list. *)
Definition strip_ntlm_negotiate (protocol_list : list string) : result (list string) :=
  match remove_if_in "ntlm" protocol_list with
  | Raise e => Raise e
  | Ok protocol_list => remove_if_in "negotiate" protocol_list
  end.

(** [auth.py] 88-97; the inner loop visits the SSPI list, then the GSSAPI
    list, two distinct list objects. *)
Fixpoint filter_ntlm_hash (credentials : list Credential)
  (sspi_protocols gssapi_protocols : list string)
  : result (list string * list string) :=
  match credentials with
  | [] => Ok (sspi_protocols, gssapi_protocols)
  | cred :: rest =>
      if is_NTLMHash cred then
        match strip_ntlm_negotiate sspi_protocols with
        | Raise e => Raise e
        | Ok sspi_protocols =>
            match strip_ntlm_negotiate gssapi_protocols with
            | Raise e => Raise e
            | Ok gssapi_protocols => Ok (sspi_protocols, gssapi_protocols)
            end
        end
      else filter_ntlm_hash rest sspi_protocols gssapi_protocols
  end.

(** [auth.py] 75-97: both filters, in program order. *)
Definition prefilter (context_req : Z) (credentials : list Credential)
  (sspi_protocols gssapi_protocols : list string)
  : result (list string * list string) :=
  match filter_gssapi_negotiate context_req credentials gssapi_protocols with
  | Raise e => Raise e
  | Ok gssapi_protocols => filter_ntlm_hash credentials sspi_protocols gssapi_protocols
  end.

Definition invalid_protocol_msg (protocol : string) : string :=
  "Invalid protocol specified '" ++ protocol ++ "', must be kerberos, negotiate, or ntlm".

(** [auth.py] 103-123: the class and the protocol name handed to it. *)
Definition select_proxy (protocol proto : string) (options : Z) (use_specified : bool)
  (sspi_protocols gssapi_protocols : list string) : result (proxy * string) :=
  if String.eqb proto "credssp" then
    Ok (CredSSPProxy, proto)
  else if truthy (Z.land options use_sspi)
          || (negb use_specified && in_list proto sspi_protocols) then
    Ok (SSPIProxy, proto)
  else if truthy (Z.land options use_gssapi)
          || (negb use_specified
              && (String.eqb proto "kerberos" || in_list proto gssapi_protocols)) then
    Ok (GSSAPIProxy, proto)
  else if truthy (Z.land options use_negotiate)
          || (negb use_specified && String.eqb proto "negotiate") then
    Ok (NegotiateProxy, proto)
  else if truthy (Z.land options use_ntlm)
          || (negb use_specified && String.eqb proto "ntlm") then
    Ok (NTLMProxy, if String.eqb proto "negotiate" then "ntlm" else proto)
  else
    Raise (ValueError (invalid_protocol_msg protocol)).

(** [auth.py] 125-134: the constructor call is made and recorded; what
    the constructor returns or raises is outside [auth.py] and is applied
    to the recorded call by [complete]. *)
Definition construct (p : proxy) (credentials : list Credential)
  (hostname service : string) (channel_bindings : option GssChannelBindings)
  (context_req : Z) (usage proto : string) (options : Z) : M ContextProxy :=
  tell (EvConstruct p) ;;;
  ret {| ctx_proxy := p;
         ctx_username := credentials;
         ctx_hostname := hostname;
         ctx_service := service;
         ctx_channel_bindings := channel_bindings;
         ctx_context_req := context_req;
         ctx_usage := usage;
         ctx_protocol := proto;
         ctx_options := options |}.

(** [auth.py] 48-134 *)
Definition _new_context (h : Host) (username : UsernameArg) (password : option string)
  (hostname service : string) (channel_bindings : option GssChannelBindings)
  (context_req : Z) (protocol : string) (options : Z) (usage : string)
  : M ContextProxy :=
  let proto := lower protocol in
  credentials <- (tell EvUnify ;;; lift (unify_credentials username password)) ;;
  sspi_protocols <- (tell (EvProbe SSPI) ;;; ret (sspi_available h options)) ;;
  gssapi_protocols <- (tell (EvProbe GSSAPI) ;;; ret (gssapi_available h options)) ;;
  let use_specified := negb (Z.land options use_flags =? 0) in
  ' (sspi_protocols, gssapi_protocols) <-
      lift (prefilter context_req credentials sspi_protocols gssapi_protocols) ;;
  ' (p, proto) <-
      lift (select_proxy protocol proto options use_specified
              sspi_protocols gssapi_protocols) ;;
  construct p credentials hostname service channel_bindings context_req
    usage proto options.

(** [auth.py] 137-207 *)
Definition client (h : Host) (username : UsernameArg) (password : option string)
  (hostname service : string) (channel_bindings : option GssChannelBindings)
  (context_req : Z) (protocol : string) (options : Z) : M ContextProxy :=
  _new_context h username password hostname service channel_bindings
    context_req protocol options "initiate".

(** [auth.py] 210-232 *)
Definition server (h : Host) (hostname service : string)
  (channel_bindings : option GssChannelBindings)
  (context_req : Z) (protocol : string) (options : Z) : M ContextProxy :=
  _new_context h UserAbsent None hostname service channel_bindings
    context_req protocol options "accept".

(** The run that makes the three calls of [auth.py] 60-62 and then
    returns the constructor call of class [p]. *)
Definition constructed (p : proxy) (credentials : list Credential)
  (hostname service : string) (channel_bindings : option GssChannelBindings)
  (context_req : Z) (usage proto : string) (options : Z) : M ContextProxy :=
  ([EvUnify; EvProbe SSPI; EvProbe GSSAPI; EvConstruct p],
   Ok (Build_ContextProxy p credentials hostname service channel_bindings
         context_req usage proto options)).

(** The run that makes the same three calls and then raises [e]. *)
Definition failed (e : exn) : M ContextProxy :=
  ([EvUnify; EvProbe SSPI; EvProbe GSSAPI], Raise e).

(** [auth.py] 99-134 on given filtered lists, after the calls of 60-62. *)
Definition resolve (credentials : list Credential)
  (hostname service : string) (channel_bindings : option GssChannelBindings)
  (context_req : Z) (protocol : string) (options : Z) (usage : string)
  (sspi_protocols gssapi_protocols : list string) : M ContextProxy :=
  match select_proxy protocol (lower protocol) options
          (negb (Z.land options use_flags =? 0)) sspi_protocols gssapi_protocols with
  | Ok (p, proto) =>
      constructed p credentials hostname service channel_bindings context_req
        usage proto options
  | Raise e => failed e
  end.

End Selection.


(** ** Hosts used in the concrete evaluations *)

(** Neither native provider is available. *)
Definition bare_host : Host :=
  {| sspi_available := fun _ => [];
     gssapi_available := fun _ => [] |}.

(** GSSAPI offers every protocol name, SSPI is absent. *)
Definition gssapi_host : Host :=
  {| sspi_available := fun _ => [];
     gssapi_available := fun _ => ["ntlm"; "kerberos"; "negotiate"; "credssp"] |}.

(** SSPI offers its three protocols, GSSAPI is absent. *)
Definition sspi_host : Host :=
  {| sspi_available := fun _ => ["kerberos"; "negotiate"; "ntlm"];
     gssapi_available := fun _ => [] |}.

(** Both native providers are present. *)
Definition dual_host : Host :=
  {| sspi_available := fun _ => ["kerberos"; "negotiate"; "ntlm"];
     gssapi_available := fun _ => ["kerberos"; "ntlm"; "negotiate"] |}.


(** ** What the caller gets *)

(** [_new_context] ends in [return proxy(...)]: the value [Ok call] of a run
    is that constructor call, and what the constructor does with it, an
    object returned or an exception of its own, goes to the caller as it
    is. [E] is the type of the exceptions of the constructors, [Obj] that
    of the objects they return. *)
Inductive completion (E Obj : Type) : Type :=
| Returned (o : Obj)
| RaisedBefore (e : exn)
| RaisedInConstructor (e : E).

Arguments Returned {E Obj} o.
Arguments RaisedBefore {E Obj} e.
Arguments RaisedInConstructor {E Obj} e.

Definition complete {E Obj : Type} (ctor : ContextProxy -> E + Obj)
  (m : M ContextProxy) : list event * completion E Obj :=
  match m with
  | (t, Raise e) => (t, RaisedBefore e)
  | (t, Ok call) =>
      (t, match ctor call with
          | inl e => RaisedInConstructor e
          | inr o => Returned o
          end)
  end.

(** ** List objects and removal in place *)

(** [auth.py] 80-95 change the lists the providers returned. Here the
    lists are objects in a store: [cells st a] is the content of the object
    at address [a], and the addresses from [next st] on are free. *)
Definition addr : Type := nat.

Record store : Type := {
  cells : addr -> list string;
  next : addr
}.

Definition load (st : store) (a : addr) : list string := cells st a.

Definition store_set (st : store) (a : addr) (l : list string) : store :=
  {| cells := fun b => if Nat.eqb b a then l else cells st b;
     next := next st |}.

Definition alloc (st : store) (l : list string) : addr * store :=
  (next st,
   {| cells := fun b => if Nat.eqb b (next st) then l else cells st b;
      next := S (next st) |}).

(** How [available_protocols] of a provider hands out its list: it builds
    a new list object on every call, or it hands out one object it keeps. *)
Inductive provider : Type :=
| NewList (f : Z -> list string)
| KeptList (a : addr).

Record ObjHost : Type := {
  sspi_provider : provider;
  gssapi_provider : provider
}.

Definition probe (p : provider) (options : Z) (st : store) : addr * store :=
  match p with
  | NewList f => alloc st (f options)
  | KeptList a => (a, st)
  end.


(** [l.remove(x)] on the object at [a]. *)
Definition remove_at (a : addr) (x : string) (st : store) : result store :=
  match list_remove x (load st a) with
  | Ok l => Ok (store_set st a l)
  | Raise e => Raise e
  end.

(** [if x in l: l.remove(x)] on the object at [a]. *)
Definition remove_if_in_at (a : addr) (x : string) (st : store) : result store :=
  if in_list x (load st a) then remove_at a x st else Ok st.


Section InPlace.

Context {NO : NegotiateOptions} {CR : ContextReq}.

(** [auth.py] 78-85 on the object [gssapi_protocols]. *)
Fixpoint kerberos_cred_loop_at (forwardable : bool) (credentials : list Credential)
  (gssapi_protocols : addr) (st : store) : result store :=
  match credentials with
  | [] => Ok st
  | cred :: rest =>
      if list_eq_dec string_dec (supported_protocols cred) ["kerberos"] then
        remove_at gssapi_protocols "negotiate" st
      else if forwardable && is_Password_or_KerberosKeytab cred then
        remove_at gssapi_protocols "negotiate" st
      else kerberos_cred_loop_at forwardable rest gssapi_protocols st
  end.

(** [auth.py] 75-85 *)
Definition filter_gssapi_negotiate_at (context_req : Z) (credentials : list Credential)
  (gssapi_protocols : addr) (st : store) : result store :=
  if in_list "negotiate" (load st gssapi_protocols) then
    let forwardable := forwardable_of context_req in
    kerberos_cred_loop_at forwardable credentials gssapi_protocols st
  else Ok st.

(** [auth.py] 91-95 on the object [protocol_list]. *)
Definition strip_ntlm_negotiate_at (protocol_list : addr) (st : store) : result store :=
  match remove_if_in_at protocol_list "ntlm" st with
  | Raise e => Raise e
  | Ok st => remove_if_in_at protocol_list "negotiate" st
  end.

(** [auth.py] 88-97 *)
Fixpoint filter_ntlm_hash_at (credentials : list Credential)
  (sspi_protocols gssapi_protocols : addr) (st : store) : result store :=
  match credentials with
  | [] => Ok st
  | cred :: rest =>
      if is_NTLMHash cred then
        match strip_ntlm_negotiate_at sspi_protocols st with
        | Raise e => Raise e
        | Ok st => strip_ntlm_negotiate_at gssapi_protocols st
        end
      else filter_ntlm_hash_at rest sspi_protocols gssapi_protocols st
  end.

(** [auth.py] 48-134 with the lists as objects: the run, and the store it
    leaves behind for whatever is called next. *)
Definition _new_context_at (h : ObjHost) (username : UsernameArg)
  (password : option string) (hostname service : string)
  (channel_bindings : option GssChannelBindings) (context_req : Z)
  (protocol : string) (options : Z) (usage : string) (st : store)
  : M ContextProxy * store :=
  let proto := lower protocol in
  match unify_credentials username password with
  | Raise e => (([EvUnify], Raise e), st)
  | Ok credentials =>
      let (sspi_protocols, st) := probe (sspi_provider h) options st in
      let (gssapi_protocols, st) := probe (gssapi_provider h) options st in
      let use_specified := negb (Z.land options use_flags =? 0) in
      match filter_gssapi_negotiate_at context_req credentials gssapi_protocols st with
      | Raise e => (failed e, st)
      | Ok st =>
          match filter_ntlm_hash_at credentials sspi_protocols gssapi_protocols st with
          | Raise e => (failed e, st)
          | Ok st =>
              match select_proxy protocol proto options use_specified
                      (load st sspi_protocols) (load st gssapi_protocols) with
              | Ok (p, proto) =>
                  (constructed p credentials hostname service channel_bindings
                     context_req usage proto options, st)
              | Raise e => (failed e, st)
              end
          end
      end
  end.

End InPlace.


Definition kept_store : store :=
  {| cells := fun a =>
       if Nat.eqb a 1 then ["kerberos"; "ntlm"; "negotiate"] else [];
     next := 2%nat |}.

Definition kept_host : ObjHost :=
  {| sspi_provider := KeptList 0%nat; gssapi_provider := KeptList 1%nat |}.

(** ** Logging set-up ([spnego/__init__.py]) *)

(** The handlers a logger can hold: the [NullHandler] that [__init__.py]
    creates, and those a logging configuration installs. *)
Inductive Handler : Type :=
| NullHandler
| ConfiguredHandler (name : string).

(** Calls that leave [_setup_logging], in program order. *)
Inductive log_call (Config : Type) : Type :=
| CallPathExists (path : string)
| CallOpen (path : string)
| CallJsonLoad (text : string)
| CallDictConfig (config : Config)
| CallAddHandler (hdlr : Handler).

Arguments CallPathExists {Config} path.
Arguments CallOpen {Config} path.
Arguments CallJsonLoad {Config} text.
Arguments CallDictConfig {Config} config.
Arguments CallAddHandler {Config} hdlr.

(** What [_setup_logging] uses of the standard library: [os.environ.get],
    [os.path.exists], [open(path, 'rt')] with the text of the file,
    [json.load] and [logging.config.dictConfig]. [E] is the type of the
    exceptions they raise, [Config] the object [json.load] returns.
    [dictConfig] acts on the logging state, of which the handlers of the
    logger are part: it may add, remove or replace them, and may raise
    after having changed some. *)
Record System (E Config : Type) : Type := {
  environ_get : string -> option string;
  path_exists : string -> bool;
  open_rt : string -> E + string;
  json_load : string -> E + Config;
  dictConfig : Config -> list Handler -> option E * list Handler
}.

Arguments environ_get {E Config} s key.
Arguments path_exists {E Config} s path.
Arguments open_rt {E Config} s path.
Arguments json_load {E Config} s text.
Arguments dictConfig {E Config} s config handlers.

(** [__init__.py] 45-56. A logger is the list of its handlers; the result
    is the calls made, the exception raised if any, and the handlers the
    logger holds afterwards. [addHandler] appends the new [NullHandler()]
    object. *)
Definition _setup_logging {E Config : Type} (sys : System E Config)
  (logger : list Handler) : list (log_call Config) * option E * list Handler :=
  let log_path := environ_get sys "PYSPNEGO_LOG_CFG" in
  match log_path with
  | Some path =>
      if path_exists sys path then
        match open_rt sys path with
        | inl e => ([CallPathExists path; CallOpen path], Some e, logger)
        | inr text =>
            match json_load sys text with
            | inl e =>
                ([CallPathExists path; CallOpen path; CallJsonLoad text],
                 Some e, logger)
            | inr config =>
                let (raised, handlers) := dictConfig sys config logger in
                ([CallPathExists path; CallOpen path; CallJsonLoad text;
                  CallDictConfig config], raised, handlers)
            end
        end
      else
        ([CallPathExists path; CallAddHandler NullHandler], None,
         (logger ++ [NullHandler])%list)
  | None =>
      ([CallAddHandler NullHandler], None, (logger ++ [NullHandler])%list)
  end.

Definition is_add_handler {Config : Type} (c : log_call Config) : bool :=
  match c with
  | CallAddHandler _ => true
  | _ => false
  end.

(** A system whose variable names a file that is not valid JSON. *)
Definition broken_config_system : System string unit :=
  {| environ_get := fun k =>
       if String.eqb k "PYSPNEGO_LOG_CFG" then Some "/etc/spnego-log.json" else None;
     path_exists := fun _ => true;
     open_rt := fun _ => inr "{";
     json_load := fun _ => inl "JSONDecodeError";
     dictConfig := fun _ hs => (None, hs) |}.

(** A system whose configuration replaces the handlers of the logger. *)
Definition configured_system : System string unit :=
  {| environ_get := fun k =>
       if String.eqb k "PYSPNEGO_LOG_CFG" then Some "/etc/spnego-log.json" else None;
     path_exists := fun _ => true;
     open_rt := fun _ => inr "{}";
     json_load := fun _ => inr tt;
     dictConfig := fun _ _ => (None, [ConfiguredHandler "console"]) |}.

(** A password credential, as [client("user", "secret")] unifies it. *)
Definition password_cred : Credential := Password "user" "secret".

(** Credentials used in the concrete evaluations. *)
Definition keytab_cred : Credential :=
  KerberosKeytab "user@EXAMPLE.COM" "/etc/krb5.keytab".

Definition ccache_cred : Credential :=
  KerberosCCache None "FILE:/tmp/my-ccache".

Definition hash_cred : Credential :=
  NTLMHash "user" None "8ADB9B997580D69E69CAA2BBB68F4697".

(** ** Facts about the list operations *)

Lemma in_list_In (x : string) (l : list string) :
  in_list x l = true <-> In x l.
Proof.
  unfold in_list. rewrite existsb_exists. split.
  - intros [y [Hy E]]. apply String.eqb_eq in E. now subst.
  - intros H. exists x. split; [assumption | apply String.eqb_refl].
Qed.

Lemma in_list_false (x : string) (l : list string) :
  in_list x l = false <-> ~ In x l.
Proof.
  rewrite <- in_list_In. destruct (in_list x l); split; intros; congruence.
Qed.

Lemma list_remove_In (x : string) (l : list string) :
  In x l -> exists l', list_remove x l = Ok l'.
Proof.
  induction l as [|y r IH]; simpl; intros H.
  - contradiction.
  - destruct (String.eqb y x) eqn:E.
    + now exists r.
    + destruct H as [H|H].
      * subst. rewrite String.eqb_refl in E. discriminate.
      * destruct (IH H) as [r' Hr]. rewrite Hr. now exists (y :: r').
Qed.

Lemma list_remove_incl (x : string) (l l' : list string) :
  list_remove x l = Ok l' -> incl l' l.
Proof.
  revert l'. induction l as [|y r IH]; simpl; intros l' H.
  - discriminate.
  - destruct (String.eqb y x).
    + injection H as <-. apply incl_tl, incl_refl.
    + destruct (list_remove x r) as [r'|e]; [|discriminate].
      injection H as <-. specialize (IH r' eq_refl).
      intros z [Hz|Hz]; [now left | right; now apply IH].
Qed.

Lemma list_remove_other (x y : string) (l l' : list string) :
  list_remove x l = Ok l' -> y <> x -> In y l -> In y l'.
Proof.
  revert l'. induction l as [|z r IH]; simpl; intros l' H Hne Hin.
  - contradiction.
  - destruct (String.eqb z x) eqn:E.
    + injection H as <-. apply String.eqb_eq in E. subst z.
      destruct Hin as [Hin|Hin]; [congruence | assumption].
    + destruct (list_remove x r) as [r'|e]; [|discriminate].
      injection H as <-. destruct Hin as [Hin|Hin]; [now left|].
      right. now apply IH.
Qed.

Lemma list_remove_NoDup (x : string) (l l' : list string) :
  list_remove x l = Ok l' -> NoDup l -> ~ In x l' /\ NoDup l'.
Proof.
  revert l'. induction l as [|y r IH]; simpl; intros l' H Hnd.
  - discriminate.
  - inversion Hnd as [|? ? Hy Hr]; subst.
    destruct (String.eqb y x) eqn:E.
    + injection H as <-. apply String.eqb_eq in E. subst y. now split.
    + destruct (list_remove x r) as [r'|e] eqn:Er; [|discriminate].
      injection H as <-. destruct (IH r' eq_refl Hr) as [Hx Hnd'].
      apply String.eqb_neq in E. split.
      * intros [H|H]; [congruence | contradiction].
      * constructor; [|assumption].
        intros Hin. apply Hy. eapply list_remove_incl; eauto.
Qed.

Lemma remove_if_in_spec (x : string) (l : list string) :
  exists l', remove_if_in x l = Ok l'
    /\ incl l' l
    /\ (forall y, y <> x -> In y l -> In y l')
    /\ (NoDup l -> ~ In x l' /\ NoDup l').
Proof.
  unfold remove_if_in. destruct (in_list x l) eqn:E.
  - apply in_list_In in E. destruct (list_remove_In x l E) as [l' Hl'].
    exists l'. repeat split.
    + assumption.
    + eapply list_remove_incl; eauto.
    + intros y Hy Hin. eapply list_remove_other; eauto.
    + eapply list_remove_NoDup; eauto.
    + eapply list_remove_NoDup; eauto.
  - apply in_list_false in E. exists l. repeat split; auto using incl_refl.
Qed.

(** ** Facts about the flags *)

Lemma truthy_false (z : Z) : truthy z = false <-> z = 0.
Proof.
  unfold truthy. destruct (Z.eqb_spec z 0); simpl; split; intros; congruence.
Qed.

Lemma truthy_true (z : Z) : truthy z = true <-> z <> 0.
Proof.
  unfold truthy. destruct (Z.eqb_spec z 0); simpl; split; intros; congruence.
Qed.

Section Facts.

Context {NO : NegotiateOptions} {CR : ContextReq}.

(** No bit of [use_flags] is set exactly when none of the four hints is. *)
Lemma use_flags_zero (options : Z) :
  Z.land options use_flags = 0 <->
  Z.land options use_sspi = 0 /\ Z.land options use_gssapi = 0
  /\ Z.land options use_negotiate = 0 /\ Z.land options use_ntlm = 0.
Proof.
  unfold use_flags. rewrite !Z.land_lor_distr_r, !Z.lor_eq_0_iff. tauto.
Qed.

(** ** Facts about the two filters *)

Lemma kerberos_cred_loop_cases (f : bool) (creds : list Credential) (g : list string) :
  kerberos_cred_loop f creds g = Ok g
  \/ kerberos_cred_loop f creds g = list_remove "negotiate" g.
Proof.
  induction creds as [|c rest IH]; simpl.
  - now left.
  - destruct (list_eq_dec string_dec (supported_protocols c) ["kerberos"]).
    + now right.
    + destruct (f && is_Password_or_KerberosKeytab c); [now right | exact IH].
Qed.

Lemma kerberos_cred_loop_fires (f : bool) (creds : list Credential) (g : list string) :
  (exists c, In c creds
     /\ (supported_protocols c = ["kerberos"]
         \/ (f = true /\ is_Password_or_KerberosKeytab c = true))) ->
  kerberos_cred_loop f creds g = list_remove "negotiate" g.
Proof.
  induction creds as [|c rest IH]; simpl; intros [c0 [Hin Hc]].
  - contradiction.
  - destruct (list_eq_dec string_dec (supported_protocols c) ["kerberos"]) as [E|E];
      [reflexivity|].
    destruct (f && is_Password_or_KerberosKeytab c) eqn:Efp; [reflexivity|].
    apply IH. exists c0. split; [|assumption].
    destruct Hin as [Hin|Hin]; [|assumption]. subst c0.
    destruct Hc as [Hc|[Hf Hp]]; [contradiction|].
    rewrite Hf, Hp in Efp. discriminate.
Qed.

Lemma filter_gssapi_negotiate_spec (cr : Z) (creds : list Credential) (g : list string) :
  exists g', filter_gssapi_negotiate cr creds g = Ok g'
    /\ incl g' g
    /\ (forall y, y <> "negotiate" -> In y g -> In y g')
    /\ (NoDup g -> NoDup g')
    /\ (NoDup g ->
        (exists c, In c creds
           /\ (supported_protocols c = ["kerberos"]
               \/ (forwardable_of cr = true /\ is_Password_or_KerberosKeytab c = true))) ->
        ~ In "negotiate" g').
Proof.
  unfold filter_gssapi_negotiate.
  destruct (in_list "negotiate" g) eqn:E.
  - apply in_list_In in E. destruct (list_remove_In _ _ E) as [g1 Hg1].
    destruct (kerberos_cred_loop_cases (forwardable_of cr) creds g) as [Hc|Hc].
    + exists g. rewrite Hc. repeat split; auto using incl_refl.
      intros Hnd Hex. rewrite (kerberos_cred_loop_fires _ _ _ Hex), Hg1 in Hc.
      injection Hc as ->. now apply (list_remove_NoDup _ _ _ Hg1).
    + exists g1. rewrite Hc. repeat split; auto.
      * eapply list_remove_incl; eauto.
      * intros y Hy Hin. eapply list_remove_other; eauto.
      * intros Hnd. now apply (list_remove_NoDup _ _ _ Hg1).
      * intros Hnd _. now apply (list_remove_NoDup _ _ _ Hg1).
  - apply in_list_false in E. exists g. repeat split; auto using incl_refl.
Qed.

Lemma strip_ntlm_negotiate_spec (l : list string) :
  exists l', strip_ntlm_negotiate l = Ok l'
    /\ incl l' l
    /\ (forall y, y <> "ntlm" -> y <> "negotiate" -> In y l -> In y l')
    /\ (NoDup l -> NoDup l' /\ ~ In "ntlm" l' /\ ~ In "negotiate" l').
Proof.
  unfold strip_ntlm_negotiate.
  destruct (remove_if_in_spec "ntlm" l) as [l1 [H1 [I1 [K1 N1]]]].
  destruct (remove_if_in_spec "negotiate" l1) as [l2 [H2 [I2 [K2 N2]]]].
  exists l2. rewrite H1, H2.
  split; [reflexivity|]. split; [eapply incl_tran; eauto|].
  split; [intros y Hy1 Hy2 Hin; auto|].
  intros Hnd. destruct (N1 Hnd) as [Hn1 Hnd1]. destruct (N2 Hnd1) as [Hn2 Hnd2].
  split; [assumption|]. split; [|assumption].
  intros Hin. apply Hn1. now apply I2.
Qed.

Lemma filter_ntlm_hash_cases (creds : list Credential) (s g : list string) :
  (filter_ntlm_hash creds s g = Ok (s, g)
   /\ forallb (fun c => negb (is_NTLMHash c)) creds = true)
  \/ (exists s' g', strip_ntlm_negotiate s = Ok s' /\ strip_ntlm_negotiate g = Ok g'
       /\ filter_ntlm_hash creds s g = Ok (s', g')
       /\ existsb is_NTLMHash creds = true).
Proof.
  induction creds as [|c rest IH]; simpl.
  - now left.
  - destruct (is_NTLMHash c); simpl.
    + right. destruct (strip_ntlm_negotiate_spec s) as [s' [Hs _]].
      destruct (strip_ntlm_negotiate_spec g) as [g' [Hg _]].
      exists s', g'. rewrite Hs, Hg. auto.
    + exact IH.
Qed.

(** Both filters together always return, only ever drop names, and keep
    lists without duplicates so. *)
Lemma prefilter_total (cr : Z) (creds : list Credential) (s g : list string) :
  exists s' g', prefilter cr creds s g = Ok (s', g')
    /\ incl s' s /\ incl g' g
    /\ (NoDup s -> NoDup s') /\ (NoDup g -> NoDup g').
Proof.
  unfold prefilter.
  destruct (filter_gssapi_negotiate_spec cr creds g) as [g1 [H1 [I1 [_ [N1 _]]]]].
  rewrite H1.
  destruct (filter_ntlm_hash_cases creds s g1) as [[H2 _]|[s' [g' [Hs [Hg [H2 _]]]]]].
  - exists s, g1. rewrite H2. repeat split; auto using incl_refl.
  - destruct (strip_ntlm_negotiate_spec s) as [s2 [Hs2 [Is [_ Ns]]]].
    destruct (strip_ntlm_negotiate_spec g1) as [g2 [Hg2 [Ig [_ Ng]]]].
    rewrite Hs in Hs2. injection Hs2 as <-. rewrite Hg in Hg2. injection Hg2 as <-.
    exists s', g'. rewrite H2. repeat split; auto.
    + eapply incl_tran; eauto.
    + intros Hnd. now apply Ns.
    + intros Hnd. apply Ng. auto.
Qed.

(** The Kerberos and delegation rules leave no [negotiate] in the GSSAPI
    list handed to the precedence rules. *)
Lemma prefilter_gssapi_negotiate (cr : Z) (creds : list Credential)
  (s g s' g' : list string) :
  prefilter cr creds s g = Ok (s', g') ->
  NoDup g ->
  (exists c, In c creds
     /\ (supported_protocols c = ["kerberos"]
         \/ (forwardable_of cr = true /\ is_Password_or_KerberosKeytab c = true))) ->
  ~ In "negotiate" g'.
Proof.
  unfold prefilter. intros H Hnd Hex.
  destruct (filter_gssapi_negotiate_spec cr creds g) as [g1 [H1 [I1 [_ [N1 F1]]]]].
  rewrite H1 in H. specialize (F1 Hnd Hex).
  destruct (filter_ntlm_hash_cases creds s g1) as [[H2 _]|[s2 [g2 [Hs [Hg [H2 _]]]]]];
    rewrite H2 in H; injection H as <- <-.
  - assumption.
  - destruct (strip_ntlm_negotiate_spec g1) as [g3 [Hg3 [Ig _]]].
    rewrite Hg in Hg3. injection Hg3 as <-. intros Hin. apply F1. now apply Ig.
Qed.

(** The hash rule leaves neither [ntlm] nor [negotiate] in either list. *)
Lemma prefilter_ntlm_hash (cr : Z) (creds : list Credential)
  (s g s' g' : list string) :
  prefilter cr creds s g = Ok (s', g') ->
  NoDup s -> NoDup g ->
  (exists c, In c creds /\ is_NTLMHash c = true) ->
  (~ In "ntlm" s' /\ ~ In "negotiate" s') /\ (~ In "ntlm" g' /\ ~ In "negotiate" g').
Proof.
  unfold prefilter. intros H Hs Hg [c [Hin Hc]].
  destruct (filter_gssapi_negotiate_spec cr creds g) as [g1 [H1 [I1 [_ [N1 _]]]]].
  rewrite H1 in H.
  destruct (filter_ntlm_hash_cases creds s g1) as [[_ Hall]|[s2 [g2 [Es [Eg [H2 _]]]]]].
  - rewrite forallb_forall in Hall. specialize (Hall c Hin).
    rewrite Hc in Hall. discriminate.
  - rewrite H2 in H. injection H as <- <-.
    destruct (strip_ntlm_negotiate_spec s) as [s3 [Hs3 [_ [_ Ns]]]].
    destruct (strip_ntlm_negotiate_spec g1) as [g3 [Hg3 [_ [_ Ng]]]].
    rewrite Es in Hs3. injection Hs3 as <-. rewrite Eg in Hg3. injection Hg3 as <-.
    split; [apply Ns | apply Ng]; auto.
Qed.

End Facts.

(** ** What exactly the filters keep *)

Lemma filter_drop_absent (x : string) (l : list string) :
  ~ In x l -> filter (fun y => negb (String.eqb y x)) l = l.
Proof.
  induction l as [|z r IH]; simpl; intros H.
  - reflexivity.
  - destruct (String.eqb_spec z x) as [->|Hz]; simpl.
    + exfalso. apply H. now left.
    + f_equal. apply IH. intros Hin. apply H. now right.
Qed.

Lemma list_remove_NoDup_filter (x : string) (l : list string) :
  NoDup l -> In x l ->
  list_remove x l = Ok (filter (fun y => negb (String.eqb y x)) l).
Proof.
  induction l as [|z r IH]; simpl; intros Hnd Hin.
  - contradiction.
  - inversion Hnd as [|? ? Hz Hr]; subst.
    destruct (String.eqb_spec z x) as [->|Hzx]; simpl.
    + now rewrite filter_drop_absent.
    + destruct Hin as [Hin|Hin]; [contradiction|].
      now rewrite (IH Hr Hin).
Qed.

Lemma remove_if_in_NoDup_filter (x : string) (l : list string) :
  NoDup l ->
  remove_if_in x l = Ok (filter (fun y => negb (String.eqb y x)) l).
Proof.
  intros Hnd. unfold remove_if_in. destruct (in_list x l) eqn:E.
  - apply in_list_In in E. now apply list_remove_NoDup_filter.
  - apply in_list_false in E. now rewrite filter_drop_absent.
Qed.

Lemma filter_twice (f k : string -> bool) (l : list string) :
  filter f (filter k l) = filter (fun y => k y && f y) l.
Proof.
  induction l as [|z r IH]; simpl.
  - reflexivity.
  - destruct (k z); simpl; [destruct (f z)|]; now rewrite IH.
Qed.

Section Exact.

Context {NO : NegotiateOptions} {CR : ContextReq}.

Lemma strip_ntlm_negotiate_exact (l : list string) :
  NoDup l ->
  strip_ntlm_negotiate l
  = Ok (filter (fun y => negb (String.eqb y "ntlm") && negb (String.eqb y "negotiate")) l).
Proof.
  intros Hnd. unfold strip_ntlm_negotiate.
  rewrite (remove_if_in_NoDup_filter "ntlm" l Hnd).
  rewrite remove_if_in_NoDup_filter by now apply NoDup_filter.
  now rewrite filter_twice.
Qed.

(** When the Kerberos or the delegation rule fires on a list without
    duplicates, what comes back is the list without [negotiate]. *)
Lemma filter_gssapi_negotiate_exact (cr : Z) (creds : list Credential)
  (g : list string) :
  NoDup g ->
  (exists c, In c creds
     /\ (supported_protocols c = ["kerberos"]
         \/ (forwardable_of cr = true /\ is_Password_or_KerberosKeytab c = true))) ->
  filter_gssapi_negotiate cr creds g
  = Ok (filter (fun y => negb (String.eqb y "negotiate")) g).
Proof.
  intros Hnd Hex. unfold filter_gssapi_negotiate.
  destruct (in_list "negotiate" g) eqn:E.
  - rewrite (kerberos_cred_loop_fires _ _ _ Hex).
    apply in_list_In in E. now apply list_remove_NoDup_filter.
  - apply in_list_false in E. now rewrite filter_drop_absent.
Qed.

(** The hash rule on given lists: both stripped when an [NTLMHash] is
    among the credentials, both as they are otherwise. *)
Lemma filter_ntlm_hash_exact (creds : list Credential) (s g : list string) :
  filter_ntlm_hash creds s g
  = if existsb is_NTLMHash creds then
      match strip_ntlm_negotiate s with
      | Raise e => Raise e
      | Ok s' =>
          match strip_ntlm_negotiate g with
          | Raise e => Raise e
          | Ok g' => Ok (s', g')
          end
      end
    else Ok (s, g).
Proof.
  induction creds as [|c rest IH]; simpl.
  - reflexivity.
  - destruct (is_NTLMHash c); simpl; [reflexivity | exact IH].
Qed.

Lemma prefilter_exact_fired (cr : Z) (creds : list Credential)
  (s g s' g' : list string) :
  prefilter cr creds s g = Ok (s', g') ->
  NoDup g ->
  (exists c, In c creds
     /\ (supported_protocols c = ["kerberos"]
         \/ (forwardable_of cr = true /\ is_Password_or_KerberosKeytab c = true))) ->
  g' = filter (fun y => negb (String.eqb y "negotiate")
                        && negb (existsb is_NTLMHash creds && String.eqb y "ntlm")) g
  /\ (existsb is_NTLMHash creds = false -> s' = s)
  /\ (NoDup s ->
      s' = filter (fun y => negb (existsb is_NTLMHash creds
                                  && (String.eqb y "ntlm" || String.eqb y "negotiate")))
             s).
Proof.
  unfold prefilter. intros H Hnd Hex.
  rewrite (filter_gssapi_negotiate_exact _ _ _ Hnd Hex) in H.
  rewrite filter_ntlm_hash_exact in H.
  destruct (existsb is_NTLMHash creds) eqn:Eh.
  - destruct (strip_ntlm_negotiate_spec s) as [s1 [Hs1 _]]. rewrite Hs1 in H.
    rewrite strip_ntlm_negotiate_exact in H by now apply NoDup_filter.
    injection H as <- <-. split; [|split].
    + rewrite filter_twice. apply filter_ext. intros y. simpl.
      destruct (String.eqb y "negotiate"), (String.eqb y "ntlm"); reflexivity.
    + discriminate.
    + intros Hs. rewrite (strip_ntlm_negotiate_exact _ Hs) in Hs1.
      injection Hs1 as <-. apply filter_ext. intros y. simpl.
      destruct (String.eqb y "negotiate"), (String.eqb y "ntlm"); reflexivity.
  - injection H as <- <-. split; [|split].
    + apply filter_ext. intros y. simpl. now rewrite andb_true_r.
    + reflexivity.
    + intros _. simpl. clear. induction s as [|z r IH]; simpl; [reflexivity|].
      now rewrite <- IH.
Qed.

Lemma prefilter_exact_hash (cr : Z) (creds : list Credential)
  (s g s' g' : list string) :
  prefilter cr creds s g = Ok (s', g') ->
  NoDup s -> NoDup g ->
  (exists c, In c creds /\ is_NTLMHash c = true) ->
  s' = filter (fun y => negb (String.eqb y "ntlm") && negb (String.eqb y "negotiate")) s
  /\ g' = filter (fun y => negb (String.eqb y "ntlm") && negb (String.eqb y "negotiate")) g.
Proof.
  unfold prefilter. intros H Hs Hg Hex.
  assert (Eh : existsb is_NTLMHash creds = true) by now apply existsb_exists.
  destruct (filter_gssapi_negotiate_spec cr creds g) as [g1 [H1 [I1 [K1 [N1 _]]]]].
  rewrite H1 in H. rewrite filter_ntlm_hash_exact, Eh in H.
  rewrite (strip_ntlm_negotiate_exact _ Hs) in H.
  rewrite (strip_ntlm_negotiate_exact _ (N1 Hg)) in H.
  injection H as <- <-. split; [reflexivity|].
  unfold filter_gssapi_negotiate in H1.
  destruct (in_list "negotiate" g) eqn:E.
  - destruct (kerberos_cred_loop_cases (forwardable_of cr) creds g) as [Hc|Hc];
      rewrite Hc in H1.
    + now injection H1 as <-.
    + apply in_list_In in E. rewrite (list_remove_NoDup_filter _ _ Hg E) in H1.
      injection H1 as <-. rewrite filter_twice. apply filter_ext. intros y.
      destruct (String.eqb y "negotiate"), (String.eqb y "ntlm"); reflexivity.
  - now injection H1 as <-.
Qed.

End Exact.

(** ** The shape of a run of [_new_context] *)

Section Runs.

Context {NO : NegotiateOptions} {CR : ContextReq}.

Variables (h : Host) (username : UsernameArg) (password : option string)
  (hostname service : string) (channel_bindings : option GssChannelBindings)
  (context_req : Z) (protocol : string) (options : Z) (usage : string).

(** When unification raises, nothing else is called. *)
Lemma _new_context_unify_raise (e : exn) :
  unify_credentials username password = Raise e ->
  _new_context h username password hostname service channel_bindings
    context_req protocol options usage = ([EvUnify], Raise e).
Proof.
  intros Hu. unfold _new_context, bind, tell, lift. simpl. now rewrite Hu.
Qed.

(** Otherwise the run is lines 99-134 on the filtered lists. *)
Lemma _new_context_run (creds : list Credential) (s g : list string) :
  unify_credentials username password = Ok creds ->
  prefilter context_req creds (sspi_available h options) (gssapi_available h options)
    = Ok (s, g) ->
  _new_context h username password hostname service channel_bindings
    context_req protocol options usage
  = resolve creds hostname service channel_bindings context_req protocol options
      usage s g.
Proof.
  intros Hu Hp. unfold _new_context, resolve, bind, tell, lift, ret. simpl.
  rewrite Hu. simpl. rewrite Hp. simpl.
  destruct (select_proxy _ _ _ _ _ _) as [[p proto]|e]; reflexivity.
Qed.

End Runs.

(** ** Facts about [select_proxy] *)

Section Select.

Context {NO : NegotiateOptions} {CR : ContextReq}.

Lemma select_proxy_credssp (protocol proto : string) (options : Z) (us : bool)
  (s g : list string) :
  proto = "credssp" ->
  select_proxy protocol proto options us s g = Ok (CredSSPProxy, "credssp").
Proof. intros ->. reflexivity. Qed.

(** Without a hint the four flag tests are false and the choice follows
    the lists and the protocol name. *)
Lemma select_proxy_auto (protocol proto : string) (options : Z) (s g : list string) :
  Z.land options use_flags = 0 ->
  proto <> "credssp" ->
  select_proxy protocol proto options (negb (Z.land options use_flags =? 0)) s g =
    if in_list proto s then Ok (SSPIProxy, proto)
    else if String.eqb proto "kerberos" || in_list proto g then Ok (GSSAPIProxy, proto)
    else if String.eqb proto "negotiate" then Ok (NegotiateProxy, proto)
    else if String.eqb proto "ntlm" then Ok (NTLMProxy, proto)
    else Raise (ValueError (invalid_protocol_msg protocol)).
Proof.
  intros H0 Hc. unfold select_proxy.
  apply String.eqb_neq in Hc. rewrite Hc, H0.
  apply use_flags_zero in H0. destruct H0 as [-> [-> [-> ->]]]. simpl.
  destruct (in_list proto s); [reflexivity|].
  destruct (String.eqb proto "kerberos" || in_list proto g); [reflexivity|].
  destruct (String.eqb proto "negotiate") eqn:En; [reflexivity|].
  destruct (String.eqb proto "ntlm"); reflexivity.
Qed.

(** With a hint the lists are not looked at. *)
Lemma select_proxy_hint (protocol proto : string) (options : Z) (s g : list string) :
  Z.land options use_flags <> 0 ->
  proto <> "credssp" ->
  select_proxy protocol proto options (negb (Z.land options use_flags =? 0)) s g =
    if truthy (Z.land options use_sspi) then Ok (SSPIProxy, proto)
    else if truthy (Z.land options use_gssapi) then Ok (GSSAPIProxy, proto)
    else if truthy (Z.land options use_negotiate) then Ok (NegotiateProxy, proto)
    else Ok (NTLMProxy, if String.eqb proto "negotiate" then "ntlm" else proto).
Proof.
  intros H0 Hc. unfold select_proxy.
  apply String.eqb_neq in Hc. rewrite Hc.
  assert (Hu : (Z.land options use_flags =? 0) = false) by now apply Z.eqb_neq.
  rewrite Hu. simpl. rewrite !orb_false_r.
  destruct (truthy (Z.land options use_sspi)) eqn:E1; [reflexivity|].
  destruct (truthy (Z.land options use_gssapi)) eqn:E2; [reflexivity|].
  destruct (truthy (Z.land options use_negotiate)) eqn:E3; [reflexivity|].
  destruct (truthy (Z.land options use_ntlm)) eqn:E4; [reflexivity|].
  exfalso. apply H0. apply use_flags_zero.
  rewrite truthy_false in E1, E2, E3, E4. auto.
Qed.

(** The name handed to the constructor is the lowered one, except for the
    rewrite of [auth.py] 119. *)
Lemma select_proxy_proto (protocol proto : string) (options : Z) (us : bool)
  (s g : list string) (p : proxy) (proto' : string) :
  select_proxy protocol proto options us s g = Ok (p, proto') ->
  (p <> NTLMProxy /\ proto' = proto)
  \/ (p = NTLMProxy /\ proto' = if String.eqb proto "negotiate" then "ntlm" else proto).
Proof.
  unfold select_proxy.
  repeat match goal with
         | |- context [if ?b then _ else _] =>
             lazymatch b with
             | String.eqb proto "negotiate" => fail
             | _ => destruct b
             end
         end;
    intros H; try discriminate; injection H as <- <-;
    solve [left; split; [discriminate | reflexivity] | right; split; reflexivity].
Qed.

Lemma select_proxy_raise (protocol proto : string) (options : Z) (us : bool)
  (s g : list string) (e : exn) :
  select_proxy protocol proto options us s g = Raise e ->
  e = ValueError (invalid_protocol_msg protocol).
Proof.
  unfold select_proxy.
  repeat match goal with
         | |- context [if ?b then _ else _] =>
             lazymatch b with
             | String.eqb proto "negotiate" => fail
             | _ => destruct b
             end
         end;
    intros H; try discriminate; now injection H as <-.
Qed.

End Select.

Section MoreSelect.

Context {NO : NegotiateOptions} {CR : ContextReq}.

(** The precedence rules raise exactly in the final [else]. *)
Lemma select_proxy_raises_iff (protocol proto : string) (options : Z)
  (s g : list string) :
  (exists e,
      select_proxy protocol proto options (negb (Z.land options use_flags =? 0)) s g
      = Raise e)
  <-> Z.land options use_flags = 0
      /\ proto <> "credssp" /\ proto <> "kerberos"
      /\ proto <> "negotiate" /\ proto <> "ntlm"
      /\ ~ In proto s /\ ~ In proto g.
Proof.
  destruct (string_dec proto "credssp") as [Hc|Hc].
  - rewrite (select_proxy_credssp _ _ _ _ _ _ Hc). split.
    + intros [e He]. discriminate.
    + intros [_ [H _]]. contradiction.
  - destruct (Z.eq_dec (Z.land options use_flags) 0) as [H0|H0].
    + rewrite (select_proxy_auto _ _ _ _ _ H0 Hc).
      rewrite <- !in_list_false.
      destruct (in_list proto s); simpl.
      { split; [intros [e He]; discriminate | intros H; exfalso; intuition congruence]. }
      destruct (String.eqb_spec proto "kerberos") as [Hk|Hk]; simpl.
      { split; [intros [e He]; discriminate | intros H; exfalso; intuition congruence]. }
      destruct (in_list proto g); simpl.
      { split; [intros [e He]; discriminate | intros H; exfalso; intuition congruence]. }
      destruct (String.eqb_spec proto "negotiate") as [Hn|Hn].
      { split; [intros [e He]; discriminate | intros H; exfalso; intuition congruence]. }
      destruct (String.eqb_spec proto "ntlm") as [Ht|Ht].
      { split; [intros [e He]; discriminate | intros H; exfalso; intuition congruence]. }
      split; [intros _; intuition congruence | intros _; eexists; reflexivity].
    + rewrite (select_proxy_hint _ _ _ _ _ H0 Hc). split.
      * intros [e He].
        destruct (truthy (Z.land options use_sspi)); [discriminate|].
        destruct (truthy (Z.land options use_gssapi)); [discriminate|].
        destruct (truthy (Z.land options use_negotiate)); discriminate.
      * intros [H _]. contradiction.
Qed.

(** The protocol as given is used for the error message only. *)
Lemma select_proxy_protocol_irrelevant (p1 p2 proto : string) (options : Z)
  (us : bool) (s g : list string) :
  match select_proxy p1 proto options us s g,
        select_proxy p2 proto options us s g with
  | Ok a, Ok b => a = b
  | Raise e1, Raise e2 =>
      e1 = ValueError (invalid_protocol_msg p1)
      /\ e2 = ValueError (invalid_protocol_msg p2)
  | _, _ => False
  end.
Proof.
  unfold select_proxy.
  repeat match goal with
         | |- context [if ?b then _ else _] =>
             lazymatch b with
             | String.eqb proto "negotiate" => fail
             | _ => destruct b
             end
         end; try reflexivity.
  now split.
Qed.

(** The options enter the precedence rules through the four hint tests. *)
Lemma select_proxy_options (protocol proto : string) (o1 o2 : Z)
  (s g : list string) :
  Z.land o1 use_sspi = Z.land o2 use_sspi ->
  Z.land o1 use_gssapi = Z.land o2 use_gssapi ->
  Z.land o1 use_negotiate = Z.land o2 use_negotiate ->
  Z.land o1 use_ntlm = Z.land o2 use_ntlm ->
  select_proxy protocol proto o1 (negb (Z.land o1 use_flags =? 0)) s g
  = select_proxy protocol proto o2 (negb (Z.land o2 use_flags =? 0)) s g.
Proof.
  intros H1 H2 H3 H4.
  assert (Hf : Z.land o1 use_flags = Z.land o2 use_flags).
  { unfold use_flags. rewrite !Z.land_lor_distr_r. now rewrite H1, H2, H3, H4. }
  unfold select_proxy. now rewrite Hf, H1, H2, H3, H4.
Qed.

End MoreSelect.

(** ** Lists as objects: what removal in place does *)





Section InPlaceFacts.

Context {NO : NegotiateOptions} {CR : ContextReq}.






End InPlaceFacts.

(** ** The selection properties *)

Section Claims.

Context {NO : NegotiateOptions} {CR : ContextReq}.

(** C6. When the lowered protocol name is [credssp], the call constructs
    [CredSSPProxy] with protocol [credssp], whatever the options, the host
    and the unified credentials are; the only other outcome is the
    exception of credential unification itself. *)
Theorem C6_credssp_unconditional (h : Host) (username : UsernameArg)
  (password : option string) (hostname service : string)
  (channel_bindings : option GssChannelBindings) (context_req : Z)
  (protocol : string) (options : Z) (usage : string) :
  lower protocol = "credssp" ->
  _new_context h username password hostname service channel_bindings
    context_req protocol options usage
  = match unify_credentials username password with
    | Ok creds =>
        constructed CredSSPProxy creds hostname service channel_bindings
          context_req usage "credssp" options
    | Raise e => ([EvUnify], Raise e)
    end.
Proof.
  intros Hp. destruct (unify_credentials username password) as [creds|e] eqn:Hu.
  - destruct (prefilter_total context_req creds (sspi_available h options)
                (gssapi_available h options)) as [s [g [Hf _]]].
    rewrite (_new_context_run _ _ _ _ _ _ _ _ _ _ _ _ _ Hu Hf).
    unfold resolve. now rewrite (select_proxy_credssp _ _ _ _ _ _ Hp).
  - now apply _new_context_unify_raise.
Qed.

(** C5. With no hint set and a protocol other than [credssp]: when the
    lowered name is in the filtered SSPI list, [SSPIProxy] is constructed;
    otherwise, when it is [kerberos] or in the filtered GSSAPI list,
    [GSSAPIProxy] is constructed. *)
Theorem C5_auto_detect_order (h : Host) (username : UsernameArg)
  (password : option string) (hostname service : string)
  (channel_bindings : option GssChannelBindings) (context_req : Z)
  (protocol : string) (options : Z) (usage : string) (creds : list Credential) :
  unify_credentials username password = Ok creds ->
  Z.land options use_flags = 0 ->
  lower protocol <> "credssp" ->
  exists s g,
    prefilter context_req creds (sspi_available h options) (gssapi_available h options)
      = Ok (s, g)
    /\ (In (lower protocol) s ->
        _new_context h username password hostname service channel_bindings
          context_req protocol options usage
        = constructed SSPIProxy creds hostname service channel_bindings
            context_req usage (lower protocol) options)
    /\ (~ In (lower protocol) s ->
        lower protocol = "kerberos" \/ In (lower protocol) g ->
        _new_context h username password hostname service channel_bindings
          context_req protocol options usage
        = constructed GSSAPIProxy creds hostname service channel_bindings
            context_req usage (lower protocol) options).
Proof.
  intros Hu H0 Hc.
  destruct (prefilter_total context_req creds (sspi_available h options)
              (gssapi_available h options)) as [s [g [Hf _]]].
  exists s, g. split; [exact Hf|].
  rewrite (_new_context_run _ _ _ _ _ _ _ _ _ _ _ _ _ Hu Hf).
  unfold resolve. rewrite (select_proxy_auto _ _ _ _ _ H0 Hc). split.
  - intros Hin. apply in_list_In in Hin. now rewrite Hin.
  - intros Hnin Hor. apply in_list_false in Hnin. rewrite Hnin.
    assert (Hb : String.eqb (lower protocol) "kerberos" || in_list (lower protocol) g = true).
    { destruct Hor as [Hk|Hg].
      - rewrite Hk. reflexivity.
      - apply in_list_In in Hg. rewrite Hg. apply orb_true_r. }
    now rewrite Hb.
Qed.

(** C7. When the call constructs [NTLMProxy] and the lowered protocol name
    was [negotiate], the protocol handed to the constructor is [ntlm]. *)
Theorem C7_negotiate_downgraded_to_ntlm (h : Host) (username : UsernameArg)
  (password : option string) (hostname service : string)
  (channel_bindings : option GssChannelBindings) (context_req : Z)
  (protocol : string) (options : Z) (usage : string) (ctx : ContextProxy) :
  outcome (_new_context h username password hostname service channel_bindings
             context_req protocol options usage) = Ok ctx ->
  ctx_proxy ctx = NTLMProxy ->
  lower protocol = "negotiate" ->
  ctx_protocol ctx = "ntlm".
Proof.
  intros Ho Hp Hn.
  destruct (unify_credentials username password) as [creds|e] eqn:Hu.
  - destruct (prefilter_total context_req creds (sspi_available h options)
                (gssapi_available h options)) as [s [g [Hf _]]].
    rewrite (_new_context_run _ _ _ _ _ _ _ _ _ _ _ _ _ Hu Hf) in Ho.
    unfold resolve in Ho.
    destruct (select_proxy _ _ _ _ _ _) as [[p proto]|e] eqn:Hs; simpl in Ho;
      [|discriminate].
    injection Ho as <-. simpl in *. subst p.
    destruct (select_proxy_proto _ _ _ _ _ _ _ _ Hs) as [[Hne _]|[_ ->]].
    + now contradiction Hne.
    + now rewrite Hn.
  - rewrite (_new_context_unify_raise _ _ _ _ _ _ _ _ _ _ _ Hu) in Ho. discriminate.
Qed.


(** C9. The filters return lists only, each a sublist of what was probed;
    the credentials are not touched. A run that returns hands the
    constructor the unified credential list as it is, the hostname, the
    service, the channel bindings, the requirement flags, the usage, the
    options, and the lowered protocol name ([ntlm] in place of [negotiate]
    for [NTLMProxy]); [client] passes usage [initiate] and [server]
    [accept]. The only exception after unification is the invalid-protocol
    [ValueError]. *)
Theorem C9_credentials_passed_unchanged (h : Host) (username : UsernameArg)
  (password : option string) (hostname service : string)
  (channel_bindings : option GssChannelBindings) (context_req : Z)
  (protocol : string) (options : Z) (usage : string) (creds : list Credential) :
  unify_credentials username password = Ok creds ->
  (exists s g,
      prefilter context_req creds (sspi_available h options) (gssapi_available h options)
        = Ok (s, g)
      /\ incl s (sspi_available h options) /\ incl g (gssapi_available h options))
  /\ match outcome (_new_context h username password hostname service
                      channel_bindings context_req protocol options usage) with
     | Ok ctx =>
         ctx_username ctx = creds
         /\ ctx_hostname ctx = hostname
         /\ ctx_service ctx = service
         /\ ctx_channel_bindings ctx = channel_bindings
         /\ ctx_context_req ctx = context_req
         /\ ctx_usage ctx = usage
         /\ ctx_options ctx = options
         /\ ctx_protocol ctx =
              match ctx_proxy ctx with
              | NTLMProxy =>
                  if String.eqb (lower protocol) "negotiate" then "ntlm"
                  else lower protocol
              | _ => lower protocol
              end
     | Raise e => e = ValueError (invalid_protocol_msg protocol)
     end
  /\ client h username password hostname service channel_bindings
       context_req protocol options
     = _new_context h username password hostname service channel_bindings
         context_req protocol options "initiate"
  /\ server h hostname service channel_bindings context_req protocol options
     = _new_context h UserAbsent None hostname service channel_bindings
         context_req protocol options "accept".
Proof.
  intros Hu.
  destruct (prefilter_total context_req creds (sspi_available h options)
              (gssapi_available h options)) as [s [g [Hf [Is [Ig _]]]]].
  split; [now exists s, g|]. split; [|split; reflexivity].
  rewrite (_new_context_run _ _ _ _ _ _ _ _ _ _ _ _ _ Hu Hf). unfold resolve.
  destruct (select_proxy _ _ _ _ _ _) as [[p proto]|e] eqn:Hs; simpl.
  - repeat (split; [reflexivity|]).
    destruct (select_proxy_proto _ _ _ _ _ _ _ _ Hs) as [[Hne ->]|[-> ->]].
    + destruct p; try reflexivity. now contradiction Hne.
    + reflexivity.
  - eapply select_proxy_raise; eauto.
Qed.

(** C10. With a protocol other than [credssp] and at least one of the four
    hints set, the class is fixed by the first hint set in the order
    [use_sspi], [use_gssapi], [use_negotiate], [use_ntlm], so the hint of
    the class constructed is set; the probed lists play no part, and every
    host gives the same run. *)
Theorem C10_hint_priority (h : Host) (username : UsernameArg)
  (password : option string) (hostname service : string)
  (channel_bindings : option GssChannelBindings) (context_req : Z)
  (protocol : string) (options : Z) (usage : string) (creds : list Credential) :
  unify_credentials username password = Ok creds ->
  lower protocol <> "credssp" ->
  Z.land options use_flags <> 0 ->
  let p :=
    if truthy (Z.land options use_sspi) then SSPIProxy
    else if truthy (Z.land options use_gssapi) then GSSAPIProxy
    else if truthy (Z.land options use_negotiate) then NegotiateProxy
    else NTLMProxy in
  let proto :=
    match p with
    | NTLMProxy =>
        if String.eqb (lower protocol) "negotiate" then "ntlm" else lower protocol
    | _ => lower protocol
    end in
  _new_context h username password hostname service channel_bindings
    context_req protocol options usage
  = constructed p creds hostname service channel_bindings context_req usage
      proto options
  /\ truthy (Z.land options
               match p with
               | SSPIProxy => use_sspi
               | GSSAPIProxy => use_gssapi
               | NegotiateProxy => use_negotiate
               | _ => use_ntlm
               end) = true
  /\ forall h' : Host,
       _new_context h' username password hostname service channel_bindings
         context_req protocol options usage
       = _new_context h username password hostname service channel_bindings
           context_req protocol options usage.
Proof.
  intros Hu Hc Hn p proto.
  assert (Hrun : forall h0 : Host,
    _new_context h0 username password hostname service channel_bindings
      context_req protocol options usage
    = constructed p creds hostname service channel_bindings context_req usage
        proto options).
  { intros h0.
    destruct (prefilter_total context_req creds (sspi_available h0 options)
                (gssapi_available h0 options)) as [s [g [Hf _]]].
    rewrite (_new_context_run _ _ _ _ _ _ _ _ _ _ _ _ _ Hu Hf). unfold resolve.
    rewrite (select_proxy_hint _ _ _ _ _ Hn Hc). subst p proto.
    destruct (truthy (Z.land options use_sspi)); [reflexivity|].
    destruct (truthy (Z.land options use_gssapi)); [reflexivity|].
    destruct (truthy (Z.land options use_negotiate)); reflexivity. }
  split; [apply Hrun|]. split.
  - subst p.
    destruct (truthy (Z.land options use_sspi)) eqn:E1; [exact E1|].
    destruct (truthy (Z.land options use_gssapi)) eqn:E2; [exact E2|].
    destruct (truthy (Z.land options use_negotiate)) eqn:E3; [exact E3|].
    destruct (truthy (Z.land options use_ntlm)) eqn:E4; [reflexivity|].
    exfalso. apply Hn. apply use_flags_zero.
    rewrite truthy_false in E1, E2, E3, E4. auto.
  - intros h'. now rewrite !Hrun.
Qed.

(** C1. When [delegate] or [delegate_policy] is requested and a unified
    credential is a [Password] or a [KerberosKeytab], the GSSAPI list
    handed to the precedence rules is the probed one without [negotiate]
    (and without [ntlm] when an [NTLMHash] is present, by the hash rule):
    every other name stays, in its place. The SSPI list is the probed one
    unless an [NTLMHash] is present. For protocol [negotiate]: unless the
    [use_gssapi] hint is set, the class constructed is not [GSSAPIProxy];
    with no hint at all it is [SSPIProxy] when the filtered SSPI list
    holds [negotiate] and [NegotiateProxy] otherwise. *)
Theorem C1_delegation_rule (h : Host) (username : UsernameArg)
  (password : option string) (hostname service : string)
  (channel_bindings : option GssChannelBindings) (context_req : Z)
  (protocol : string) (options : Z) (usage : string) (creds : list Credential) :
  unify_credentials username password = Ok creds ->
  forwardable_of context_req = true ->
  (exists c, In c creds /\ is_Password_or_KerberosKeytab c = true) ->
  NoDup (gssapi_available h options) ->
  exists s g,
    prefilter context_req creds (sspi_available h options) (gssapi_available h options)
      = Ok (s, g)
    /\ g = filter (fun y => negb (String.eqb y "negotiate")
                           && negb (existsb is_NTLMHash creds && String.eqb y "ntlm"))
             (gssapi_available h options)
    /\ (existsb is_NTLMHash creds = false -> s = sspi_available h options)
    /\ (NoDup (sspi_available h options) ->
        s = filter (fun y => negb (existsb is_NTLMHash creds
                                   && (String.eqb y "ntlm" || String.eqb y "negotiate")))
              (sspi_available h options))
    /\ ~ In "negotiate" g
    /\ _new_context h username password hostname service channel_bindings
         context_req protocol options usage
       = resolve creds hostname service channel_bindings context_req protocol
           options usage s g
    /\ (lower protocol = "negotiate" ->
        Z.land options use_gssapi = 0 ->
        exists ctx,
          outcome (_new_context h username password hostname service
                     channel_bindings context_req protocol options usage) = Ok ctx
          /\ ctx_proxy ctx <> GSSAPIProxy)
    /\ (lower protocol = "negotiate" ->
        Z.land options use_flags = 0 ->
        _new_context h username password hostname service channel_bindings
          context_req protocol options usage
        = constructed (if in_list "negotiate" s then SSPIProxy else NegotiateProxy)
            creds hostname service channel_bindings context_req usage
            "negotiate" options).
Proof.
  intros Hu Hfw [c [Hin Hc]] Hnd.
  destruct (prefilter_total context_req creds (sspi_available h options)
              (gssapi_available h options)) as [s [g [Hf _]]].
  assert (Hex : exists c, In c creds
            /\ (supported_protocols c = ["kerberos"]
                \/ (forwardable_of context_req = true
                    /\ is_Password_or_KerberosKeytab c = true))).
  { exists c. split; [exact Hin|]. right. now split. }
  destruct (prefilter_exact_fired _ _ _ _ _ _ Hf Hnd Hex) as [Eg [Es1 Es2]].
  assert (Hng : ~ In "negotiate" g).
  { eapply prefilter_gssapi_negotiate; eauto. }
  assert (Hauto : lower protocol = "negotiate" ->
                  Z.land options use_flags = 0 ->
                  resolve creds hostname service channel_bindings context_req
                    protocol options usage s g
                  = constructed (if in_list "negotiate" s then SSPIProxy
                                 else NegotiateProxy)
                      creds hostname service channel_bindings context_req usage
                      "negotiate" options).
  { intros Hp H0. unfold resolve. rewrite select_proxy_auto; [|exact H0|].
    - rewrite Hp. apply in_list_false in Hng. rewrite Hng. simpl.
      destruct (in_list "negotiate" s); reflexivity.
    - rewrite Hp. discriminate. }
  exists s, g. split; [exact Hf|]. split; [exact Eg|]. split; [exact Es1|].
  split; [exact Es2|]. split; [exact Hng|].
  rewrite (_new_context_run _ _ _ _ _ _ _ _ _ _ _ _ _ Hu Hf).
  split; [reflexivity|]. split; [|exact Hauto].
  intros Hp Hg0. destruct (Z.eq_dec (Z.land options use_flags) 0) as [H0|H0].
  - rewrite (Hauto Hp H0). eexists. split; [reflexivity|]. simpl.
    destruct (in_list "negotiate" s); discriminate.
  - unfold resolve. rewrite select_proxy_hint; [|exact H0|].
    + rewrite Hg0. simpl.
      destruct (truthy (Z.land options use_sspi));
        [eexists; split; [reflexivity|discriminate]|].
      destruct (truthy (Z.land options use_negotiate));
        eexists; (split; [reflexivity|discriminate]).
    + rewrite Hp. discriminate.
Qed.

(** C4. When a unified credential has [supported_protocols] equal to
    [["kerberos"]], the GSSAPI list handed to the precedence rules is the
    probed one without [negotiate] (and without [ntlm] when an [NTLMHash]
    is present, by the hash rule): every other name stays, in its place.
    The SSPI list is the probed one unless an [NTLMHash] is present. *)
Theorem C4_kerberos_only_rule (h : Host) (username : UsernameArg)
  (password : option string) (hostname service : string)
  (channel_bindings : option GssChannelBindings) (context_req : Z)
  (protocol : string) (options : Z) (usage : string) (creds : list Credential) :
  unify_credentials username password = Ok creds ->
  (exists c, In c creds /\ supported_protocols c = ["kerberos"]) ->
  NoDup (gssapi_available h options) ->
  exists s g,
    prefilter context_req creds (sspi_available h options) (gssapi_available h options)
      = Ok (s, g)
    /\ g = filter (fun y => negb (String.eqb y "negotiate")
                           && negb (existsb is_NTLMHash creds && String.eqb y "ntlm"))
             (gssapi_available h options)
    /\ (existsb is_NTLMHash creds = false -> s = sspi_available h options)
    /\ (NoDup (sspi_available h options) ->
        s = filter (fun y => negb (existsb is_NTLMHash creds
                                   && (String.eqb y "ntlm" || String.eqb y "negotiate")))
              (sspi_available h options))
    /\ ~ In "negotiate" g
    /\ _new_context h username password hostname service channel_bindings
         context_req protocol options usage
       = resolve creds hostname service channel_bindings context_req protocol
           options usage s g.
Proof.
  intros Hu [c [Hin Hc]] Hnd.
  destruct (prefilter_total context_req creds (sspi_available h options)
              (gssapi_available h options)) as [s [g [Hf _]]].
  assert (Hex : exists c, In c creds
            /\ (supported_protocols c = ["kerberos"]
                \/ (forwardable_of context_req = true
                    /\ is_Password_or_KerberosKeytab c = true))).
  { exists c. split; [exact Hin|]. now left. }
  destruct (prefilter_exact_fired _ _ _ _ _ _ Hf Hnd Hex) as [Eg [Es1 Es2]].
  exists s, g. split; [exact Hf|]. split; [exact Eg|]. split; [exact Es1|].
  split; [exact Es2|]. split.
  - eapply prefilter_gssapi_negotiate; eauto.
  - now apply _new_context_run.
Qed.

(** C3. When a unified credential is an [NTLMHash], each list handed to
    the precedence rules is the probed one without [ntlm] and without
    [negotiate]: every other name stays, in its place. For protocol
    [ntlm] with no hint set the call constructs [NTLMProxy] with protocol
    [ntlm]. *)
Theorem C3_ntlm_hash_rule (h : Host) (username : UsernameArg)
  (password : option string) (hostname service : string)
  (channel_bindings : option GssChannelBindings) (context_req : Z)
  (protocol : string) (options : Z) (usage : string) (creds : list Credential) :
  unify_credentials username password = Ok creds ->
  (exists c, In c creds /\ is_NTLMHash c = true) ->
  NoDup (sspi_available h options) ->
  NoDup (gssapi_available h options) ->
  exists s g,
    prefilter context_req creds (sspi_available h options) (gssapi_available h options)
      = Ok (s, g)
    /\ s = filter (fun y => negb (String.eqb y "ntlm")
                           && negb (String.eqb y "negotiate"))
             (sspi_available h options)
    /\ g = filter (fun y => negb (String.eqb y "ntlm")
                           && negb (String.eqb y "negotiate"))
             (gssapi_available h options)
    /\ (~ In "ntlm" s /\ ~ In "negotiate" s)
    /\ (~ In "ntlm" g /\ ~ In "negotiate" g)
    /\ _new_context h username password hostname service channel_bindings
         context_req protocol options usage
       = resolve creds hostname service channel_bindings context_req protocol
           options usage s g
    /\ (lower protocol = "ntlm" ->
        Z.land options use_flags = 0 ->
        _new_context h username password hostname service channel_bindings
          context_req protocol options usage
        = constructed NTLMProxy creds hostname service channel_bindings
            context_req usage "ntlm" options).
Proof.
  intros Hu Hex Hs Hg.
  destruct (prefilter_total context_req creds (sspi_available h options)
              (gssapi_available h options)) as [s [g [Hf _]]].
  destruct (prefilter_ntlm_hash _ _ _ _ _ _ Hf Hs Hg Hex) as [[Hs1 Hs2] [Hg1 Hg2]].
  destruct (prefilter_exact_hash _ _ _ _ _ _ Hf Hs Hg Hex) as [Es Eg].
  exists s, g. split; [exact Hf|]. split; [exact Es|]. split; [exact Eg|].
  split; [now split|]. split; [now split|].
  rewrite (_new_context_run _ _ _ _ _ _ _ _ _ _ _ _ _ Hu Hf).
  split; [reflexivity|].
  intros Hp H0. unfold resolve. rewrite select_proxy_auto; [|exact H0|].
  - rewrite Hp. apply in_list_false in Hs1, Hg1. now rewrite Hs1, Hg1.
  - rewrite Hp. discriminate.
Qed.

(** C2. For a protocol whose lowered name is none of [ntlm],
    [kerberos], [negotiate], [credssp]: the credentials are unified and
    both providers probed first; when unification succeeds, no hint is set
    and neither probed list holds the lowered name, the call then raises
    the invalid-protocol [ValueError], which names the protocol as
    given. *)
Theorem C2_invalid_protocol_rejected_last (h : Host) (username : UsernameArg)
  (password : option string) (hostname service : string)
  (channel_bindings : option GssChannelBindings) (context_req : Z)
  (protocol : string) (options : Z) (usage : string) (creds : list Credential) :
  lower protocol <> "ntlm" ->
  lower protocol <> "kerberos" ->
  lower protocol <> "negotiate" ->
  lower protocol <> "credssp" ->
  unify_credentials username password = Ok creds ->
  Z.land options use_flags = 0 ->
  ~ In (lower protocol) (sspi_available h options) ->
  ~ In (lower protocol) (gssapi_available h options) ->
  _new_context h username password hostname service channel_bindings
    context_req protocol options usage
  = failed (ValueError (invalid_protocol_msg protocol)).
Proof.
  intros Hn Hk Hg Hc Hu H0 Hs Hgs.
  destruct (prefilter_total context_req creds (sspi_available h options)
              (gssapi_available h options)) as [s [g [Hf [Is [Ig _]]]]].
  rewrite (_new_context_run _ _ _ _ _ _ _ _ _ _ _ _ _ Hu Hf). unfold resolve.
  rewrite (select_proxy_auto _ _ _ _ _ H0 Hc).
  assert (Es : in_list (lower protocol) s = false).
  { apply in_list_false. intros Hin. apply Hs. now apply Is. }
  assert (Eg : in_list (lower protocol) g = false).
  { apply in_list_false. intros Hin. apply Hgs. now apply Ig. }
  apply String.eqb_neq in Hn, Hk, Hg.
  now rewrite Es, Eg, Hn, Hk, Hg.
Qed.

End Claims.

(** ** Concrete calls *)

Ltac solve_NoDup :=
  repeat (apply NoDup_cons; [simpl; intuition discriminate|]); apply NoDup_nil.

Ltac solve_exists_cred :=
  eexists; split; [left; reflexivity | reflexivity].

(** A keytab with [delegate] requested and the [use_gssapi] hint set is
    still handed to [GSSAPIProxy] with protocol [negotiate]: the hint is
    tested before the filtered list is. *)
Lemma C1_counterexample :
  forwardable_of (CR := bit_context_req) 1 = true
  /\ is_Password_or_KerberosKeytab keytab_cred = true
  /\ In "negotiate" (gssapi_available gssapi_host 2)
  /\ client (NO := bit_options) (CR := bit_context_req) gssapi_host
       (UserCred keytab_cred) None "server" "host" None 1 "negotiate" 2
     = constructed GSSAPIProxy [keytab_cred] "server" "host" None 1
         "initiate" "negotiate" 2.
Proof. repeat split; simpl; auto. Qed.

Lemma C1_witness :
  exists s g,
    prefilter (CR := bit_context_req) 1 [keytab_cred]
      (sspi_available gssapi_host 0) (gssapi_available gssapi_host 0) = Ok (s, g)
    /\ g = ["ntlm"; "kerberos"; "credssp"]
    /\ s = []
    /\ _new_context (NO := bit_options) (CR := bit_context_req) gssapi_host
         (UserCred keytab_cred) None "server" "host" None 1 "negotiate" 0 "initiate"
       = constructed NegotiateProxy [keytab_cred] "server" "host" None 1
           "initiate" "negotiate" 0.
Proof.
  destruct (@C1_delegation_rule bit_options bit_context_req gssapi_host
              (UserCred keytab_cred) None "server" "host" None 1 "negotiate" 0
              "initiate" [keytab_cred] eq_refl eq_refl
              (ex_intro _ keytab_cred (conj (or_introl eq_refl) eq_refl))
              ltac:(simpl; solve_NoDup))
    as [s [g [Hf [Eg [Es [_ [_ [_ [_ Hauto]]]]]]]]].
  exists s, g. split; [exact Hf|]. split; [exact Eg|].
  pose proof (Es eq_refl) as Es'. split; [exact Es'|].
  rewrite (Hauto eq_refl eq_refl). now rewrite Es'.
Defined.

(** [bogus] with the [use_sspi] hint is handed to [SSPIProxy] unchecked;
    without a hint it is rejected only after unification and both probes;
    and a password given next to a credential object raises the credential
    error although the protocol is [bogus]. *)
Lemma C2_counterexample :
  client (NO := bit_options) (CR := bit_context_req) bare_host
    UserAbsent None "server" "host" None 0 "bogus" 1
  = constructed SSPIProxy [CredentialCache None] "server" "host" None 0
      "initiate" "bogus" 1
  /\ client (NO := bit_options) (CR := bit_context_req) bare_host
       UserAbsent None "server" "host" None 0 "bogus" 0
     = ([EvUnify; EvProbe SSPI; EvProbe GSSAPI],
        Raise (ValueError
          "Invalid protocol specified 'bogus', must be kerberos, negotiate, or ntlm"))
  /\ client (NO := bit_options) (CR := bit_context_req) bare_host
       (UserCred hash_cred) (Some "secret") "server" "host" None 0 "bogus" 0
     = ([EvUnify], Raise InvalidCredentialError).
Proof. repeat split. Qed.

Lemma C2_witness :
  _new_context (NO := bit_options) (CR := bit_context_req) gssapi_host
    UserAbsent None "server" "host" None 0 "Bogus" 0 "accept"
  = failed (ValueError (invalid_protocol_msg "Bogus")).
Proof.
  apply (@C2_invalid_protocol_rejected_last bit_options bit_context_req gssapi_host
           UserAbsent None "server" "host" None 0 "Bogus" 0 "accept"
           [CredentialCache None]);
    try discriminate; try reflexivity; simpl; intuition discriminate.
Defined.

Lemma C3_witness :
  exists s g,
    prefilter (CR := bit_context_req) 0 [ccache_cred; hash_cred]
      (sspi_available dual_host 0) (gssapi_available dual_host 0) = Ok (s, g)
    /\ s = ["kerberos"]
    /\ g = ["kerberos"]
    /\ _new_context (NO := bit_options) (CR := bit_context_req) dual_host
         (UserCreds [ccache_cred; hash_cred]) None "server" "host" None 0 "NTLM" 0
         "initiate"
       = constructed NTLMProxy [ccache_cred; hash_cred] "server" "host" None 0
           "initiate" "ntlm" 0.
Proof.
  destruct (@C3_ntlm_hash_rule bit_options bit_context_req dual_host
              (UserCreds [ccache_cred; hash_cred]) None "server" "host" None 0
              "NTLM" 0 "initiate" [ccache_cred; hash_cred] eq_refl
              (ex_intro _ hash_cred (conj (or_intror (or_introl eq_refl)) eq_refl))
              ltac:(simpl; solve_NoDup) ltac:(simpl; solve_NoDup))
    as [s [g [Hf [Es [Eg [_ [_ [_ Hntlm]]]]]]]].
  exists s, g. split; [exact Hf|]. split; [exact Es|]. split; [exact Eg|].
  exact (Hntlm eq_refl eq_refl).
Defined.

Lemma C4_witness :
  exists s g,
    prefilter (CR := bit_context_req) 0 [ccache_cred]
      (sspi_available gssapi_host 0) (gssapi_available gssapi_host 0) = Ok (s, g)
    /\ g = ["ntlm"; "kerberos"; "credssp"]
    /\ s = []
    /\ _new_context (NO := bit_options) (CR := bit_context_req) gssapi_host
         (UserCred ccache_cred) None "server" "host" None 0 "negotiate" 0 "initiate"
       = resolve (NO := bit_options) [ccache_cred] "server" "host" None 0
           "negotiate" 0 "initiate" s g.
Proof.
  destruct (@C4_kerberos_only_rule bit_options bit_context_req gssapi_host
              (UserCred ccache_cred) None "server" "host" None 0 "negotiate" 0
              "initiate" [ccache_cred] eq_refl
              (ex_intro _ ccache_cred (conj (or_introl eq_refl) eq_refl))
              ltac:(simpl; solve_NoDup))
    as [s [g [Hf [Eg [Es [_ [_ Hrun]]]]]]].
  exists s, g. split; [exact Hf|]. split; [exact Eg|].
  split; [exact (Es eq_refl) | exact Hrun].
Defined.

Lemma C5_witness :
  exists s g,
    prefilter (CR := bit_context_req) 0 [CredentialCache (Some "user")]
      (sspi_available dual_host 0) (gssapi_available dual_host 0) = Ok (s, g)
    /\ (In "negotiate" s ->
        _new_context (NO := bit_options) (CR := bit_context_req) dual_host
          (UserStr "user") None "server" "host" None 0 "negotiate" 0 "initiate"
        = constructed SSPIProxy [CredentialCache (Some "user")] "server" "host"
            None 0 "initiate" "negotiate" 0)
    /\ (~ In "negotiate" s ->
        "negotiate" = "kerberos" \/ In "negotiate" g ->
        _new_context (NO := bit_options) (CR := bit_context_req) dual_host
          (UserStr "user") None "server" "host" None 0 "negotiate" 0 "initiate"
        = constructed GSSAPIProxy [CredentialCache (Some "user")] "server" "host"
            None 0 "initiate" "negotiate" 0).
Proof.
  apply (@C5_auto_detect_order bit_options bit_context_req dual_host
           (UserStr "user") None "server" "host" None 0 "negotiate" 0 "initiate"
           [CredentialCache (Some "user")]).
  - reflexivity.
  - reflexivity.
  - discriminate.
Defined.

Lemma C6_witness :
  _new_context (NO := bit_options) (CR := bit_context_req) gssapi_host
    (UserStr "user") (Some "secret") "server" "host" None 0 "CredSSP" 2 "initiate"
  = constructed CredSSPProxy [Password "user" "secret"] "server" "host" None 0
      "initiate" "credssp" 2.
Proof.
  exact (@C6_credssp_unconditional bit_options bit_context_req gssapi_host
           (UserStr "user") (Some "secret") "server" "host" None 0 "CredSSP" 2
           "initiate" eq_refl).
Defined.

Lemma C7_witness :
  ctx_protocol
    (Build_ContextProxy NTLMProxy [CredentialCache None] "server" "host" None 0
       "initiate" "ntlm" 8) = "ntlm".
Proof.
  apply (@C7_negotiate_downgraded_to_ntlm bit_options bit_context_req gssapi_host
           UserAbsent None "server" "host" None 0 "Negotiate" 8 "initiate");
    reflexivity.
Defined.



(** The premise on the providers is needed. On a host that hands out one
    list object it keeps, a call with a Kerberos cache removes [negotiate]
    from that object for good: the same call of [client] that gets
    [GSSAPIProxy] before it gets [NegotiateProxy] after it. *)
Example kept_list_changes_later_calls :
  fst (_new_context_at (NO := bit_options) (CR := bit_context_req) kept_host
         UserAbsent None "server" "host" None 0 "negotiate" 0 "initiate" kept_store)
  = constructed GSSAPIProxy [CredentialCache None] "server" "host" None 0
      "initiate" "negotiate" 0
  /\ fst (_new_context_at (NO := bit_options) (CR := bit_context_req) kept_host
            UserAbsent None "server" "host" None 0 "negotiate" 0 "initiate"
            (snd (_new_context_at (NO := bit_options) (CR := bit_context_req)
                    kept_host (UserCred ccache_cred) None "server" "host" None 0
                    "negotiate" 0 "initiate" kept_store)))
     = constructed NegotiateProxy [CredentialCache None] "server" "host" None 0
         "initiate" "negotiate" 0.
Proof. split; reflexivity. Qed.

Lemma C9_witness :
  ctx_username
    (Build_ContextProxy NegotiateProxy [ccache_cred; hash_cred] "server" "host"
       None 0 "initiate" "negotiate" 0)
  = [ccache_cred; hash_cred].
Proof.
  exact (proj1 (proj1 (proj2
    (@C9_credentials_passed_unchanged bit_options bit_context_req gssapi_host
       (UserCreds [ccache_cred; hash_cred]) None "server" "host" None 0
       "negotiate" 0 "initiate" [ccache_cred; hash_cred] eq_refl)))).
Defined.

Lemma C10_witness :
  _new_context (NO := bit_options) (CR := bit_context_req) gssapi_host
    UserAbsent None "server" "host" None 0 "ntlm" 3 "initiate"
  = constructed SSPIProxy [CredentialCache None] "server" "host" None 0
      "initiate" "ntlm" 3.
Proof.
  refine (proj1 (@C10_hint_priority bit_options bit_context_req gssapi_host
           UserAbsent None "server" "host" None 0 "ntlm" 3 "initiate"
           [CredentialCache None] eq_refl _ _)); discriminate.
Defined.

(** ** Further facts about the filters and the selection *)

Lemma lower_ascii_idempotent (c : ascii) :
  lower_ascii (lower_ascii c) = lower_ascii c.
Proof.
  destruct c as [[] [] [] [] [] [] [] []]; reflexivity.
Qed.

Lemma lower_idempotent (s : string) : lower (lower s) = lower s.
Proof.
  induction s as [|c r IH]; simpl.
  - reflexivity.
  - now rewrite lower_ascii_idempotent, IH.
Qed.

Lemma in_list_ext (x : string) (l l' : list string) :
  (In x l <-> In x l') -> in_list x l = in_list x l'.
Proof.
  intros H. destruct (in_list x l') eqn:E.
  - apply in_list_In. apply H. now apply in_list_In.
  - apply in_list_false. intros Hin. apply in_list_false in E. apply E. now apply H.
Qed.

Lemma list_remove_count (x : string) (l l' : list string) :
  list_remove x l = Ok l' ->
  count_occ string_dec l' x = pred (count_occ string_dec l x)
  /\ forall y, y <> x -> count_occ string_dec l' y = count_occ string_dec l y.
Proof.
  revert l'. induction l as [|z r IH]; simpl; intros l' H.
  - discriminate.
  - destruct (String.eqb z x) eqn:E.
    + injection H as <-. apply String.eqb_eq in E. subst z. split.
      * destruct (string_dec x x); [reflexivity | congruence].
      * intros y Hy. destruct (string_dec x y); [congruence | reflexivity].
    + destruct (list_remove x r) as [r'|e] eqn:Er; [|discriminate].
      injection H as <-. apply String.eqb_neq in E.
      destruct (IH r' eq_refl) as [H1 H2]. split.
      * simpl. destruct (string_dec z x); [congruence | exact H1].
      * intros y Hy. simpl. destruct (string_dec z y); [f_equal|]; now apply H2.
Qed.

Section MoreFacts.

Context {NO : NegotiateOptions} {CR : ContextReq}.

Lemma kerberos_cred_loop_idle (f : bool) (creds : list Credential) (g : list string) :
  (forall c, In c creds ->
     supported_protocols c <> ["kerberos"]
     /\ f && is_Password_or_KerberosKeytab c = false) ->
  kerberos_cred_loop f creds g = Ok g.
Proof.
  induction creds as [|c rest IH]; simpl; intros H.
  - reflexivity.
  - destruct (H c (or_introl eq_refl)) as [Hk Hp].
    destruct (list_eq_dec string_dec (supported_protocols c) ["kerberos"]);
      [contradiction|].
    rewrite Hp. apply IH. intros c' Hc'. apply H. now right.
Qed.

Lemma filter_ntlm_hash_idle (creds : list Credential) (s g : list string) :
  (forall c, In c creds -> is_NTLMHash c = false) ->
  filter_ntlm_hash creds s g = Ok (s, g).
Proof.
  induction creds as [|c rest IH]; simpl; intros H.
  - reflexivity.
  - rewrite (H c (or_introl eq_refl)). apply IH. intros c' Hc'. apply H. now right.
Qed.

(** Without an [NTLMHash] the SSPI list comes back as it went in. *)
Lemma prefilter_sspi_idle (cr : Z) (creds : list Credential) (s g s' g' : list string) :
  (forall c, In c creds -> is_NTLMHash c = false) ->
  prefilter cr creds s g = Ok (s', g') ->
  s' = s.
Proof.
  unfold prefilter. intros Hn H.
  destruct (filter_gssapi_negotiate cr creds g) as [g1|e]; [|discriminate].
  rewrite (filter_ntlm_hash_idle _ _ _ Hn) in H. now injection H as <- _.
Qed.

(** When no rule fires both lists come back as they went in. *)
Lemma prefilter_idle (cr : Z) (creds : list Credential) (s g : list string) :
  (forall c, In c creds ->
     supported_protocols c <> ["kerberos"]
     /\ forwardable_of cr && is_Password_or_KerberosKeytab c = false
     /\ is_NTLMHash c = false) ->
  prefilter cr creds s g = Ok (s, g).
Proof.
  intros H. unfold prefilter, filter_gssapi_negotiate.
  rewrite kerberos_cred_loop_idle.
  - destruct (in_list "negotiate" g); apply filter_ntlm_hash_idle;
      intros c Hc; now apply H.
  - intros c Hc. destruct (H c Hc) as [H1 [H2 _]]. now split.
Qed.

(** Names other than [ntlm] and [negotiate] are never dropped. *)
Lemma prefilter_keeps (cr : Z) (creds : list Credential) (s g s' g' : list string)
  (y : string) :
  prefilter cr creds s g = Ok (s', g') ->
  y <> "ntlm" -> y <> "negotiate" ->
  in_list y s' = in_list y s /\ in_list y g' = in_list y g.
Proof.
  unfold prefilter. intros H Hy1 Hy2.
  destruct (filter_gssapi_negotiate_spec cr creds g) as [g1 [H1 [I1 [K1 _]]]].
  rewrite H1 in H.
  destruct (filter_ntlm_hash_cases creds s g1) as [[H2 _]|[s2 [g2 [Es [Eg [H2 _]]]]]];
    rewrite H2 in H; injection H as <- <-.
  - split; [reflexivity|]. apply in_list_ext. split; [apply I1 | now apply K1].
  - destruct (strip_ntlm_negotiate_spec s) as [s3 [Hs3 [Is [Ks _]]]].
    destruct (strip_ntlm_negotiate_spec g1) as [g3 [Hg3 [Ig [Kg _]]]].
    rewrite Es in Hs3. injection Hs3 as <-. rewrite Eg in Hg3. injection Hg3 as <-.
    split; apply in_list_ext; split.
    + apply Is.
    + now apply Ks.
    + intros Hin. apply I1. now apply Ig.
    + intros Hin. apply Kg; auto.
Qed.

(** The precedence rules look at the two lists only to ask whether they
    hold the lowered protocol name. *)
Lemma select_proxy_ext (protocol proto : string) (options : Z) (us : bool)
  (s g s' g' : list string) :
  in_list proto s = in_list proto s' ->
  in_list proto g = in_list proto g' ->
  select_proxy protocol proto options us s g
  = select_proxy protocol proto options us s' g'.
Proof.
  intros Hs Hg. unfold select_proxy. now rewrite Hs, Hg.
Qed.

(** With unification done and the filters run, what can still fail. *)
Lemma resolve_outcome (creds : list Credential) (hostname service : string)
  (channel_bindings : option GssChannelBindings) (context_req : Z)
  (protocol : string) (options : Z) (usage : string) (s g : list string) :
  (exists p proto,
      resolve creds hostname service channel_bindings context_req protocol
        options usage s g
      = constructed p creds hostname service channel_bindings context_req usage
          proto options)
  \/ (resolve creds hostname service channel_bindings context_req protocol
        options usage s g
      = failed (ValueError (invalid_protocol_msg protocol))).
Proof.
  unfold resolve.
  destruct (select_proxy _ _ _ _ _ _) as [[p proto]|e] eqn:Hs.
  - left. now exists p, proto.
  - right. now rewrite (select_proxy_raise _ _ _ _ _ _ _ Hs).
Qed.

End MoreFacts.


(** ** Further properties of the selection *)

Section Extras.

Context {NO : NegotiateOptions} {CR : ContextReq}.

(** X1. Once the credentials are unified, the call raises before it
    reaches the constructor call exactly when no hint is set, the lowered
    protocol name is none of [credssp], [kerberos], [negotiate], [ntlm],
    and neither filtered list holds it; what it raises is then the
    invalid-protocol [ValueError], never the [ValueError] of a
    [list.remove]. In every other case the constructor is called, and what
    it returns or raises is what the caller gets. *)
Theorem X1_selection_fails_exactly_when (E Obj : Type)
  (ctor : ContextProxy -> E + Obj) (h : Host) (username : UsernameArg)
  (password : option string) (hostname service : string)
  (channel_bindings : option GssChannelBindings) (context_req : Z)
  (protocol : string) (options : Z) (usage : string)
  (creds : list Credential) (s g : list string) :
  unify_credentials username password = Ok creds ->
  prefilter context_req creds (sspi_available h options) (gssapi_available h options)
    = Ok (s, g) ->
  ((exists e,
       snd (complete ctor
              (_new_context h username password hostname service
                 channel_bindings context_req protocol options usage))
       = RaisedBefore e)
   <-> Z.land options use_flags = 0
       /\ lower protocol <> "credssp" /\ lower protocol <> "kerberos"
       /\ lower protocol <> "negotiate" /\ lower protocol <> "ntlm"
       /\ ~ In (lower protocol) s /\ ~ In (lower protocol) g)
  /\ (forall e,
        snd (complete ctor
               (_new_context h username password hostname service
                  channel_bindings context_req protocol options usage))
        = RaisedBefore e ->
        e = ValueError (invalid_protocol_msg protocol))
  /\ ((forall e,
         snd (complete ctor
                (_new_context h username password hostname service
                   channel_bindings context_req protocol options usage))
         <> RaisedBefore e) ->
      exists p proto,
        _new_context h username password hostname service channel_bindings
          context_req protocol options usage
        = constructed p creds hostname service channel_bindings context_req
            usage proto options
        /\ snd (complete ctor
                  (_new_context h username password hostname service
                     channel_bindings context_req protocol options usage))
           = match ctor (Build_ContextProxy p creds hostname service
                           channel_bindings context_req usage proto options) with
             | inl e => RaisedInConstructor e
             | inr o => Returned o
             end).
Proof.
  intros Hu Hf.
  rewrite (_new_context_run _ _ _ _ _ _ _ _ _ _ _ _ _ Hu Hf).
  rewrite <- select_proxy_raises_iff with (protocol := protocol).
  unfold resolve.
  destruct (select_proxy _ _ _ _ _ _) as [[p proto]|e0] eqn:Hs; simpl.
  - split; [|split].
    + split.
      * intros [e He]. destruct (ctor _); discriminate.
      * intros [e He]. discriminate.
    + intros e He. destruct (ctor _); discriminate.
    + intros _. exists p, proto. split; reflexivity.
  - split; [|split].
    + split; intros _; now exists e0.
    + intros e He. injection He as <-. eapply select_proxy_raise; eauto.
    + intros Hno. exfalso. now apply (Hno e0).
Qed.

(** X2. [server], and [client] called without credentials or with a user
    name only, unify to a single [CredentialCache]; none of the filters
    fires for it, so the precedence rules see the two lists exactly as the
    providers reported them, and no credential error can occur. *)
Theorem X2_cache_credential_lists_unfiltered (h : Host) (hostname service : string)
  (channel_bindings : option GssChannelBindings) (context_req : Z)
  (protocol : string) (options : Z) :
  server h hostname service channel_bindings context_req protocol options
  = resolve [CredentialCache None] hostname service channel_bindings context_req
      protocol options "accept" (sspi_available h options) (gssapi_available h options)
  /\ client h UserAbsent None hostname service channel_bindings context_req
       protocol options
     = resolve [CredentialCache None] hostname service channel_bindings context_req
         protocol options "initiate" (sspi_available h options)
         (gssapi_available h options)
  /\ forall u : string,
       client h (UserStr u) None hostname service channel_bindings context_req
         protocol options
       = resolve [CredentialCache (Some u)] hostname service channel_bindings
           context_req protocol options "initiate" (sspi_available h options)
           (gssapi_available h options).
Proof.
  assert (Hidle : forall o : option string, forall c : Credential,
            In c [CredentialCache o] ->
            supported_protocols c <> ["kerberos"]
            /\ forwardable_of context_req && is_Password_or_KerberosKeytab c = false
            /\ is_NTLMHash c = false).
  { intros o c [<-|[]]. simpl. rewrite andb_false_r.
    split; [discriminate|]. split; reflexivity. }
  unfold server, client. repeat split; try intros u;
    (apply _new_context_run; [reflexivity | apply prefilter_idle; apply Hidle]).
Qed.

(** X3. When no unified credential is Kerberos-only, none is an [NTLMHash],
    and none is a [Password] or [KerberosKeytab] with delegation requested,
    the filters change nothing: the precedence rules see the lists as
    probed. *)
Theorem X3_filters_idle_without_trigger (h : Host) (username : UsernameArg)
  (password : option string) (hostname service : string)
  (channel_bindings : option GssChannelBindings) (context_req : Z)
  (protocol : string) (options : Z) (usage : string) (creds : list Credential) :
  unify_credentials username password = Ok creds ->
  (forall c, In c creds ->
     supported_protocols c <> ["kerberos"]
     /\ forwardable_of context_req && is_Password_or_KerberosKeytab c = false
     /\ is_NTLMHash c = false) ->
  prefilter context_req creds (sspi_available h options) (gssapi_available h options)
    = Ok (sspi_available h options, gssapi_available h options)
  /\ _new_context h username password hostname service channel_bindings
       context_req protocol options usage
     = resolve creds hostname service channel_bindings context_req protocol
         options usage (sspi_available h options) (gssapi_available h options).
Proof.
  intros Hu Hidle.
  assert (Hf := prefilter_idle context_req creds (sspi_available h options)
                  (gssapi_available h options) Hidle).
  split; [exact Hf | now apply _new_context_run].
Qed.

(** X4. The Kerberos and delegation rules never touch the SSPI list: with
    no [NTLMHash] among the credentials, no hint and a protocol other than
    [credssp], a name SSPI reports always gives [SSPIProxy]. *)
Theorem X4_sspi_chosen_unless_ntlm_hash (h : Host) (username : UsernameArg)
  (password : option string) (hostname service : string)
  (channel_bindings : option GssChannelBindings) (context_req : Z)
  (protocol : string) (options : Z) (usage : string) (creds : list Credential) :
  unify_credentials username password = Ok creds ->
  (forall c, In c creds -> is_NTLMHash c = false) ->
  Z.land options use_flags = 0 ->
  lower protocol <> "credssp" ->
  In (lower protocol) (sspi_available h options) ->
  _new_context h username password hostname service channel_bindings
    context_req protocol options usage
  = constructed SSPIProxy creds hostname service channel_bindings context_req
      usage (lower protocol) options.
Proof.
  intros Hu Hn H0 Hc Hin.
  destruct (prefilter_total context_req creds (sspi_available h options)
              (gssapi_available h options)) as [s [g [Hf _]]].
  rewrite (_new_context_run _ _ _ _ _ _ _ _ _ _ _ _ _ Hu Hf).
  rewrite (prefilter_sspi_idle _ _ _ _ _ _ Hn Hf).
  unfold resolve. rewrite (select_proxy_auto _ _ _ _ _ H0 Hc).
  apply in_list_In in Hin. now rewrite Hin.
Qed.

(** X5. The filters drop [ntlm] and [negotiate] only, so for every other
    protocol name ([kerberos] in particular) the credentials and the
    requirement flags have no say in the choice: the run is the one on the
    lists as probed. *)
Theorem X5_filters_only_affect_ntlm_and_negotiate (h : Host)
  (username : UsernameArg) (password : option string) (hostname service : string)
  (channel_bindings : option GssChannelBindings) (context_req : Z)
  (protocol : string) (options : Z) (usage : string) (creds : list Credential) :
  unify_credentials username password = Ok creds ->
  lower protocol <> "ntlm" ->
  lower protocol <> "negotiate" ->
  _new_context h username password hostname service channel_bindings
    context_req protocol options usage
  = resolve creds hostname service channel_bindings context_req protocol
      options usage (sspi_available h options) (gssapi_available h options).
Proof.
  intros Hu Hn Hg.
  destruct (prefilter_total context_req creds (sspi_available h options)
              (gssapi_available h options)) as [s [g [Hf _]]].
  rewrite (_new_context_run _ _ _ _ _ _ _ _ _ _ _ _ _ Hu Hf).
  destruct (prefilter_keeps _ _ _ _ _ _ _ Hf Hn Hg) as [Es Eg].
  unfold resolve. now rewrite (select_proxy_ext _ _ _ _ _ _ _ _ Es Eg).
Qed.

(** X6. The fallback described in the comment of [auth.py] 70-74: with a
    Kerberos-only credential, protocol [negotiate], no hint, and SSPI not
    offering [negotiate], the call constructs [NegotiateProxy] with
    protocol [negotiate], although GSSAPI reported [negotiate]. *)
Theorem X6_kerberos_cred_negotiate_fallback (h : Host) (username : UsernameArg)
  (password : option string) (hostname service : string)
  (channel_bindings : option GssChannelBindings) (context_req : Z)
  (protocol : string) (options : Z) (usage : string) (creds : list Credential) :
  unify_credentials username password = Ok creds ->
  (exists c, In c creds /\ supported_protocols c = ["kerberos"]) ->
  NoDup (gssapi_available h options) ->
  Z.land options use_flags = 0 ->
  lower protocol = "negotiate" ->
  ~ In "negotiate" (sspi_available h options) ->
  _new_context h username password hostname service channel_bindings
    context_req protocol options usage
  = constructed NegotiateProxy creds hostname service channel_bindings
      context_req usage "negotiate" options.
Proof.
  intros Hu [c [Hin Hc]] Hnd H0 Hp Hs.
  destruct (prefilter_total context_req creds (sspi_available h options)
              (gssapi_available h options)) as [s [g [Hf [Is _]]]].
  assert (Hg : ~ In "negotiate" g).
  { eapply prefilter_gssapi_negotiate; eauto. }
  rewrite (_new_context_run _ _ _ _ _ _ _ _ _ _ _ _ _ Hu Hf).
  unfold resolve. rewrite select_proxy_auto; [|exact H0|rewrite Hp; discriminate].
  rewrite Hp.
  assert (Es : in_list "negotiate" s = false).
  { apply in_list_false. intros Hi. apply Hs. now apply Is. }
  apply in_list_false in Hg. now rewrite Es, Hg.
Qed.

(** X7. With an [NTLMHash] among the credentials, protocol [negotiate] and
    no hint, neither native provider is used: the call constructs
    [NegotiateProxy] with protocol [negotiate]. *)
Theorem X7_ntlm_hash_negotiate_fallback (h : Host) (username : UsernameArg)
  (password : option string) (hostname service : string)
  (channel_bindings : option GssChannelBindings) (context_req : Z)
  (protocol : string) (options : Z) (usage : string) (creds : list Credential) :
  unify_credentials username password = Ok creds ->
  (exists c, In c creds /\ is_NTLMHash c = true) ->
  NoDup (sspi_available h options) ->
  NoDup (gssapi_available h options) ->
  Z.land options use_flags = 0 ->
  lower protocol = "negotiate" ->
  _new_context h username password hostname service channel_bindings
    context_req protocol options usage
  = constructed NegotiateProxy creds hostname service channel_bindings
      context_req usage "negotiate" options.
Proof.
  intros Hu Hex Hs Hg H0 Hp.
  destruct (prefilter_total context_req creds (sspi_available h options)
              (gssapi_available h options)) as [s [g [Hf _]]].
  destruct (prefilter_ntlm_hash _ _ _ _ _ _ Hf Hs Hg Hex) as [[_ Hs2] [_ Hg2]].
  rewrite (_new_context_run _ _ _ _ _ _ _ _ _ _ _ _ _ Hu Hf).
  unfold resolve. rewrite select_proxy_auto; [|exact H0|rewrite Hp; discriminate].
  rewrite Hp. apply in_list_false in Hs2, Hg2. now rewrite Hs2, Hg2.
Qed.

(** X8. The protocol is matched without regard to case: two spellings with
    the same lowered form make the same calls, and either both return the
    same class and arguments or both raise. *)
Theorem X8_protocol_case_insensitive (h : Host) (username : UsernameArg)
  (password : option string) (hostname service : string)
  (channel_bindings : option GssChannelBindings) (context_req : Z)
  (p1 p2 : string) (options : Z) (usage : string) :
  lower p1 = lower p2 ->
  trace (_new_context h username password hostname service channel_bindings
           context_req p1 options usage)
  = trace (_new_context h username password hostname service channel_bindings
             context_req p2 options usage)
  /\ match outcome (_new_context h username password hostname service
                      channel_bindings context_req p1 options usage),
           outcome (_new_context h username password hostname service
                      channel_bindings context_req p2 options usage) with
     | Ok c1, Ok c2 => c1 = c2
     | Raise _, Raise _ => True
     | _, _ => False
     end.
Proof.
  intros Hl.
  destruct (unify_credentials username password) as [creds|e] eqn:Hu.
  - destruct (prefilter_total context_req creds (sspi_available h options)
                (gssapi_available h options)) as [s [g [Hf _]]].
    rewrite !(_new_context_run _ _ _ _ _ _ _ _ _ _ _ _ _ Hu Hf).
    unfold resolve. rewrite Hl.
    pose proof (select_proxy_protocol_irrelevant p1 p2 (lower p2) options
                  (negb (Z.land options use_flags =? 0)) s g) as Hi.
    destruct (select_proxy p1 _ _ _ _ _) as [[q1 r1]|e1];
      destruct (select_proxy p2 _ _ _ _ _) as [[q2 r2]|e2]; simpl in *;
      try contradiction.
    + injection Hi as <- <-. now split.
    + now split.
  - rewrite !(_new_context_unify_raise _ _ _ _ _ _ _ _ _ _ _ Hu). now split.
Qed.

(** X9. The protocol name handed to a constructor is always in lower
    case. *)
Theorem X9_constructor_protocol_lowercase (h : Host) (username : UsernameArg)
  (password : option string) (hostname service : string)
  (channel_bindings : option GssChannelBindings) (context_req : Z)
  (protocol : string) (options : Z) (usage : string) (ctx : ContextProxy) :
  outcome (_new_context h username password hostname service channel_bindings
             context_req protocol options usage) = Ok ctx ->
  lower (ctx_protocol ctx) = ctx_protocol ctx.
Proof.
  intros Ho.
  destruct (unify_credentials username password) as [creds|e] eqn:Hu.
  - destruct (prefilter_total context_req creds (sspi_available h options)
                (gssapi_available h options)) as [s [g [Hf _]]].
    rewrite (_new_context_run _ _ _ _ _ _ _ _ _ _ _ _ _ Hu Hf) in Ho.
    unfold resolve in Ho.
    destruct (select_proxy _ _ _ _ _ _) as [[p proto]|e] eqn:Hs; simpl in Ho;
      [|discriminate].
    injection Ho as <-. simpl.
    destruct (select_proxy_proto _ _ _ _ _ _ _ _ Hs) as [[_ ->]|[_ ->]].
    + apply lower_idempotent.
    + destruct (String.eqb (lower protocol) "negotiate");
        [reflexivity | apply lower_idempotent].
  - rewrite (_new_context_unify_raise _ _ _ _ _ _ _ _ _ _ _ Hu) in Ho. discriminate.
Qed.

(** X10. When unification raises, no provider is probed. Otherwise both
    providers are probed once each, SSPI first, on every call, also for
    [credssp] and with a hint set, where the lists are not used; the only
    call that can follow is one constructor call. *)
Theorem X10_probes_once_in_order (h : Host) (username : UsernameArg)
  (password : option string) (hostname service : string)
  (channel_bindings : option GssChannelBindings) (context_req : Z)
  (protocol : string) (options : Z) (usage : string) :
  match unify_credentials username password with
  | Raise e =>
      _new_context h username password hostname service channel_bindings
        context_req protocol options usage = ([EvUnify], Raise e)
  | Ok _ =>
      exists rest,
        trace (_new_context h username password hostname service channel_bindings
                 context_req protocol options usage)
        = ([EvUnify; EvProbe SSPI; EvProbe GSSAPI] ++ rest)%list
        /\ (rest = [] \/ exists p, rest = [EvConstruct p])
  end.
Proof.
  destruct (unify_credentials username password) as [creds|e] eqn:Hu.
  - destruct (prefilter_total context_req creds (sspi_available h options)
                (gssapi_available h options)) as [s [g [Hf _]]].
    rewrite (_new_context_run _ _ _ _ _ _ _ _ _ _ _ _ _ Hu Hf).
    destruct (resolve_outcome creds hostname service channel_bindings context_req
                protocol options usage s g) as [[p [proto ->]]| ->].
    + exists [EvConstruct p]. split; [reflexivity | right; now exists p].
    + exists []. split; [reflexivity | now left].
  - now apply _new_context_unify_raise.
Qed.

(** X11. Option bits other than the four hints have no say in the choice
    beyond what the providers report for them: two option values with the
    same four hint tests, for which the host reports the same lists, make
    the same calls and give the same class, protocol and credentials, or
    the same exception. *)
Theorem X11_other_option_bits_do_not_select (h : Host) (username : UsernameArg)
  (password : option string) (hostname service : string)
  (channel_bindings : option GssChannelBindings) (context_req : Z)
  (protocol : string) (o1 o2 : Z) (usage : string) :
  Z.land o1 use_sspi = Z.land o2 use_sspi ->
  Z.land o1 use_gssapi = Z.land o2 use_gssapi ->
  Z.land o1 use_negotiate = Z.land o2 use_negotiate ->
  Z.land o1 use_ntlm = Z.land o2 use_ntlm ->
  sspi_available h o1 = sspi_available h o2 ->
  gssapi_available h o1 = gssapi_available h o2 ->
  trace (_new_context h username password hostname service channel_bindings
           context_req protocol o1 usage)
  = trace (_new_context h username password hostname service channel_bindings
             context_req protocol o2 usage)
  /\ match outcome (_new_context h username password hostname service
                      channel_bindings context_req protocol o1 usage),
           outcome (_new_context h username password hostname service
                      channel_bindings context_req protocol o2 usage) with
     | Ok c1, Ok c2 =>
         ctx_proxy c1 = ctx_proxy c2
         /\ ctx_protocol c1 = ctx_protocol c2
         /\ ctx_username c1 = ctx_username c2
     | Raise e1, Raise e2 => e1 = e2
     | _, _ => False
     end.
Proof.
  intros H1 H2 H3 H4 Hs Hg.
  destruct (unify_credentials username password) as [creds|e] eqn:Hu.
  - destruct (prefilter_total context_req creds (sspi_available h o1)
                (gssapi_available h o1)) as [s [g [Hf _]]].
    rewrite (_new_context_run _ _ _ _ _ _ _ _ _ _ _ _ _ Hu Hf).
    rewrite Hs, Hg in Hf.
    rewrite (_new_context_run _ _ _ _ _ _ _ _ _ _ _ _ _ Hu Hf).
    unfold resolve. rewrite (select_proxy_options _ _ _ _ _ _ H1 H2 H3 H4).
    destruct (select_proxy _ _ _ _ _ _) as [[p proto]|e]; simpl; auto.
  - rewrite !(_new_context_unify_raise _ _ _ _ _ _ _ _ _ _ _ Hu). now split.
Qed.

(** X13. The Kerberos and delegation filter drops one occurrence of
    [negotiate] and nothing else: a GSSAPI list that names [negotiate]
    twice still names it afterwards, and every other name keeps its
    number of occurrences. *)
Theorem X13_filter_drops_one_occurrence (context_req : Z)
  (creds : list Credential) (g : list string) :
  In "negotiate" g ->
  (exists c, In c creds
     /\ (supported_protocols c = ["kerberos"]
         \/ (forwardable_of context_req = true
             /\ is_Password_or_KerberosKeytab c = true))) ->
  exists g',
    filter_gssapi_negotiate context_req creds g = Ok g'
    /\ S (count_occ string_dec g' "negotiate") = count_occ string_dec g "negotiate"
    /\ (forall y, y <> "negotiate" ->
          count_occ string_dec g' y = count_occ string_dec g y)
    /\ (In "negotiate" g' <-> (2 <= count_occ string_dec g "negotiate")%nat).
Proof.
  intros Hin Hex. unfold filter_gssapi_negotiate.
  rewrite (proj2 (in_list_In _ _) Hin).
  rewrite (kerberos_cred_loop_fires _ _ _ Hex).
  destruct (list_remove_In _ _ Hin) as [g' Hg']. exists g'.
  destruct (list_remove_count _ _ _ Hg') as [Hc Ho].
  apply (count_occ_In string_dec) in Hin.
  split; [exact Hg'|]. split; [lia|]. split; [exact Ho|].
  rewrite (count_occ_In string_dec). lia.
Qed.

End Extras.

(** ** Concrete calls for the further properties *)

Lemma X1_witness :
  exists e,
    snd (complete (E := string) (Obj := unit) (fun _ => inl "ImportError")
           (_new_context (NO := bit_options) (CR := bit_context_req) gssapi_host
              UserAbsent None "server" "host" None 0 "bogus" 0 "initiate"))
    = RaisedBefore e.
Proof.
  apply (proj1 (@X1_selection_fails_exactly_when bit_options bit_context_req
                  string unit (fun _ => inl "ImportError")
                  gssapi_host UserAbsent None "server" "host" None 0 "bogus" 0
                  "initiate" [CredentialCache None] []
                  ["ntlm"; "kerberos"; "negotiate"; "credssp"] eq_refl eq_refl)).
  simpl. repeat split; try discriminate; intuition discriminate.
Defined.

Lemma X3_witness :
  _new_context (NO := bit_options) (CR := bit_context_req) gssapi_host
    (UserStr "user") (Some "secret") "server" "host" None 0 "negotiate" 0 "initiate"
  = resolve (NO := bit_options) [password_cred] "server" "host" None 0
      "negotiate" 0 "initiate" (sspi_available gssapi_host 0)
      (gssapi_available gssapi_host 0).
Proof.
  refine (proj2 (@X3_filters_idle_without_trigger bit_options bit_context_req
                   gssapi_host (UserStr "user") (Some "secret") "server" "host"
                   None 0 "negotiate" 0 "initiate" [password_cred] eq_refl _)).
  intros c [<-|[]]. split; [discriminate|]. split; reflexivity.
Defined.

Lemma X4_witness :
  _new_context (NO := bit_options) (CR := bit_context_req) dual_host
    (UserCred keytab_cred) None "server" "host" None 1 "negotiate" 0 "initiate"
  = constructed SSPIProxy [keytab_cred] "server" "host" None 1 "initiate"
      "negotiate" 0.
Proof.
  apply (@X4_sspi_chosen_unless_ntlm_hash bit_options bit_context_req dual_host
           (UserCred keytab_cred) None "server" "host" None 1 "negotiate" 0
           "initiate" [keytab_cred]).
  - reflexivity.
  - intros c [<-|[]]. reflexivity.
  - reflexivity.
  - discriminate.
  - simpl. auto.
Defined.

Lemma X5_witness :
  _new_context (NO := bit_options) (CR := bit_context_req) dual_host
    (UserCred hash_cred) None "server" "host" None 1 "Kerberos" 0 "initiate"
  = resolve (NO := bit_options) [hash_cred] "server" "host" None 1 "Kerberos" 0
      "initiate" (sspi_available dual_host 0) (gssapi_available dual_host 0).
Proof.
  apply (@X5_filters_only_affect_ntlm_and_negotiate bit_options bit_context_req
           dual_host (UserCred hash_cred) None "server" "host" None 1 "Kerberos" 0
           "initiate" [hash_cred]).
  - reflexivity.
  - discriminate.
  - discriminate.
Defined.

Lemma X6_witness :
  _new_context (NO := bit_options) (CR := bit_context_req) gssapi_host
    (UserCred ccache_cred) None "server" "host" None 0 "negotiate" 0 "initiate"
  = constructed NegotiateProxy [ccache_cred] "server" "host" None 0 "initiate"
      "negotiate" 0.
Proof.
  apply (@X6_kerberos_cred_negotiate_fallback bit_options bit_context_req
           gssapi_host (UserCred ccache_cred) None "server" "host" None 0
           "negotiate" 0 "initiate" [ccache_cred]).
  - reflexivity.
  - solve_exists_cred.
  - simpl. solve_NoDup.
  - reflexivity.
  - reflexivity.
  - simpl. tauto.
Defined.

Lemma X7_witness :
  _new_context (NO := bit_options) (CR := bit_context_req) dual_host
    (UserCred hash_cred) None "server" "host" None 0 "negotiate" 0 "initiate"
  = constructed NegotiateProxy [hash_cred] "server" "host" None 0 "initiate"
      "negotiate" 0.
Proof.
  apply (@X7_ntlm_hash_negotiate_fallback bit_options bit_context_req dual_host
           (UserCred hash_cred) None "server" "host" None 0 "negotiate" 0
           "initiate" [hash_cred]).
  - reflexivity.
  - solve_exists_cred.
  - simpl. solve_NoDup.
  - simpl. solve_NoDup.
  - reflexivity.
  - reflexivity.
Defined.

Lemma X8_witness :
  trace (_new_context (NO := bit_options) (CR := bit_context_req) dual_host
           UserAbsent None "server" "host" None 0 "NTLM" 0 "initiate")
  = trace (_new_context (NO := bit_options) (CR := bit_context_req) dual_host
             UserAbsent None "server" "host" None 0 "ntlm" 0 "initiate").
Proof.
  exact (proj1 (@X8_protocol_case_insensitive bit_options bit_context_req dual_host
                  UserAbsent None "server" "host" None 0 "NTLM" "ntlm" 0
                  "initiate" eq_refl)).
Defined.

Lemma X9_witness :
  lower (ctx_protocol
           (Build_ContextProxy GSSAPIProxy [CredentialCache None] "server" "host"
              None 0 "initiate" "kerberos" 0))
  = "kerberos".
Proof.
  exact (@X9_constructor_protocol_lowercase bit_options bit_context_req bare_host
           UserAbsent None "server" "host" None 0 "Kerberos" 0 "initiate"
           (Build_ContextProxy GSSAPIProxy [CredentialCache None] "server" "host"
              None 0 "initiate" "kerberos" 0) eq_refl).
Defined.

Lemma X11_witness :
  trace (_new_context (NO := bit_options) (CR := bit_context_req) gssapi_host
           UserAbsent None "server" "host" None 0 "negotiate" 0 "initiate")
  = trace (_new_context (NO := bit_options) (CR := bit_context_req) gssapi_host
             UserAbsent None "server" "host" None 0 "negotiate" 16 "initiate").
Proof.
  exact (proj1 (@X11_other_option_bits_do_not_select bit_options bit_context_req
                  gssapi_host UserAbsent None "server" "host" None 0 "negotiate"
                  0 16 "initiate" eq_refl eq_refl eq_refl eq_refl eq_refl eq_refl)).
Defined.

Lemma X13_witness :
  exists g',
    filter_gssapi_negotiate (CR := bit_context_req) 0 [ccache_cred]
      ["negotiate"; "kerberos"; "negotiate"] = Ok g'
    /\ S (count_occ string_dec g' "negotiate")
       = count_occ string_dec ["negotiate"; "kerberos"; "negotiate"] "negotiate"
    /\ (forall y, y <> "negotiate" ->
          count_occ string_dec g' y
          = count_occ string_dec ["negotiate"; "kerberos"; "negotiate"] y)
    /\ (In "negotiate" g'
        <-> (2 <= count_occ string_dec ["negotiate"; "kerberos"; "negotiate"]
                    "negotiate")%nat).
Proof.
  apply (@X13_filter_drops_one_occurrence bit_context_req 0 [ccache_cred]
           ["negotiate"; "kerberos"; "negotiate"]).
  - simpl. auto.
  - eexists. split; [left; reflexivity | left; reflexivity].
Defined.

(** X12. [_setup_logging] adds a [NullHandler] exactly when the variable
    [PYSPNEGO_LOG_CFG] is unset, in which case the file system is not
    asked, or names a path that does not exist; it then returns without
    opening anything. When the variable names an existing path it adds no
    handler of its own: a failure to open or to parse the file is raised
    with the handlers of the logger untouched and [dictConfig] not called,
    and otherwise the exception and the handlers of the logger are those
    [dictConfig] leaves. *)
Theorem X12_setup_logging_null_handler (E Config : Type) (sys : System E Config)
  (logger : list Handler) :
  match environ_get sys "PYSPNEGO_LOG_CFG" with
  | None =>
      _setup_logging sys logger
      = ([CallAddHandler NullHandler], None, (logger ++ [NullHandler])%list)
  | Some path =>
      if path_exists sys path then
        filter is_add_handler (fst (fst (_setup_logging sys logger))) = []
        /\ (forall e, open_rt sys path = inl e ->
              _setup_logging sys logger
              = ([CallPathExists path; CallOpen path], Some e, logger))
        /\ (forall text e, open_rt sys path = inr text ->
              json_load sys text = inl e ->
              _setup_logging sys logger
              = ([CallPathExists path; CallOpen path; CallJsonLoad text],
                 Some e, logger))
        /\ (forall text config, open_rt sys path = inr text ->
              json_load sys text = inr config ->
              _setup_logging sys logger
              = ([CallPathExists path; CallOpen path; CallJsonLoad text;
                  CallDictConfig config],
                 fst (dictConfig sys config logger),
                 snd (dictConfig sys config logger)))
      else
        _setup_logging sys logger
        = ([CallPathExists path; CallAddHandler NullHandler], None,
           (logger ++ [NullHandler])%list)
  end.
Proof.
  unfold _setup_logging.
  destruct (environ_get sys "PYSPNEGO_LOG_CFG") as [path|]; [|reflexivity].
  destruct (path_exists sys path); [|reflexivity].
  destruct (open_rt sys path) as [e|text] eqn:Ho.
  - split; [reflexivity|]. split; [|split].
    + intros e' He'. now injection He' as <-.
    + intros text e' Ht. discriminate.
    + intros text config Ht. discriminate.
  - destruct (json_load sys text) as [e|config] eqn:Hj.
    + split; [reflexivity|]. split; [|split].
      * intros e' He'. discriminate.
      * intros text' e' Ht Hj'. injection Ht as <-. rewrite Hj in Hj'.
        now injection Hj' as <-.
      * intros text' config Ht Hj'. injection Ht as <-. rewrite Hj in Hj'.
        discriminate.
    + destruct (dictConfig sys config logger) as [raised handlers] eqn:Hd.
      split; [reflexivity|]. split; [|split].
      * intros e' He'. discriminate.
      * intros text' e' Ht Hj'. injection Ht as <-. rewrite Hj in Hj'.
        discriminate.
      * intros text' config' Ht Hj'. injection Ht as <-. rewrite Hj in Hj'.
        injection Hj' as <-. now rewrite Hd.
Qed.

(** A file that does not parse makes the set-up raise with no handler
    added; a configuration that installs its own handler leaves the logger
    with that handler and no [NullHandler]. *)
Example setup_logging_with_a_file :
  _setup_logging broken_config_system []
  = ([CallPathExists "/etc/spnego-log.json"; CallOpen "/etc/spnego-log.json";
      CallJsonLoad "{"], Some "JSONDecodeError", [])
  /\ _setup_logging configured_system []
     = ([CallPathExists "/etc/spnego-log.json"; CallOpen "/etc/spnego-log.json";
         CallJsonLoad "{}"; CallDictConfig tt], None, [ConfiguredHandler "console"]).
Proof. split; reflexivity. Qed.
